(** * xero2rabo: Xero bank statement (CSV) to Rabobank SEPA credit transfer

    A shallow embedding of [xero2rabo.py] and the properties of its message
    identifier generator, its record reader and its document builder.

    Conventions of the embedding:
    - a Python [str] is a [string]; one character stands for one code point;
    - the non-negative Python integers the program handles (the fields of a
      [datetime], [len], the loop index of [enumerate]) are [nat];
    - the module-level [now = datetime.now()] is a parameter [now : datetime]
      of every function that reads it: it is captured once and never changes;
    - [random.choice] draws from an explicit source [rnd : nat -> nat],
      [rnd k] being the raw value of the k-th draw;
    - an [xml.etree.ElementTree.Element] is a finite tree; a reference to a
      node of the tree is the path of child positions that leads to it;
    - an exception is an [Err] result. *)

From Stdlib Require Import String Ascii List Arith Lia Bool.
Import ListNotations.
Open Scope string_scope.
Open Scope nat_scope.

#[local] Set Warnings "-register-all,-abstract-large-number".

(** ** Python built-ins used by the program *)

Module Py.

(** The character of a decimal digit [d < 10]. *)
Definition digit_char (d : nat) : ascii := ascii_of_nat (48 + d).

(** Decimal digits of [n], most significant first, without leading zero. *)
Fixpoint digits_of (fuel n : nat) : string :=
  match fuel with
  | 0 => ""
  | S f =>
      if n <? 10 then String (digit_char n) ""
      else digits_of f (n / 10) ++ String (digit_char (n mod 10)) ""
  end.

(** [str(n)] for an integer [n >= 0]. *)
Definition str (n : nat) : string := digits_of (S n) n.

(** [c * k] for a one-character string. *)
Fixpoint repeat_char (c : ascii) (k : nat) : string :=
  match k with
  | 0 => ""
  | S k' => String c (repeat_char c k')
  end.

Definition is_sign (c : ascii) : bool :=
  (c =? "+")%char || (c =? "-")%char.

(** [s.zfill(width)]: the string is returned as it is when it is already
    [width] long; otherwise zeros are inserted on the left, after a leading
    sign character when there is one. *)
Definition zfill (width : nat) (s : string) : string :=
  if width <=? String.length s then s
  else
    let fill := width - String.length s in
    match s with
    | String c rest =>
        if is_sign c then String c (repeat_char "0" fill ++ rest)
        else repeat_char "0" fill ++ s
    | EmptyString => repeat_char "0" fill
    end.

(** ['{:02d}'.format(n)], ['%04d' % n], ['%06d' % n] for [n >= 0]. *)
Definition format_0d (width n : nat) : string :=
  repeat_char "0" (width - String.length (str n)) ++ str n.

(** [s[:n]]. *)
Definition slice_to (n : nat) (s : string) : string := substring 0 n s.

(** [s.split(sep)[0]]: the text before the first [sep], all of [s] when
    there is none. *)
Fixpoint split_head (sep : ascii) (s : string) : string :=
  match s with
  | EmptyString => ""
  | String c rest => if (c =? sep)%char then "" else String c (split_head sep rest)
  end.

(** [''.join(cs)] for a sequence of characters. *)
Definition join (cs : list ascii) : string := string_of_list_ascii cs.

Definition ascii_lowercase : string := "abcdefghijklmnopqrstuvwxyz".
Definition digits : string := "0123456789".

(** [random.choice(seq)] on the raw draw [r]: [seq[randbelow(len(seq))]]. *)
Definition choice (r : nat) (seq : string) : ascii :=
  nth (r mod String.length seq) (list_ascii_of_string seq) zero.

End Py.

(** ** The captured clock *)

(** The fields of a naive [datetime] that the program reads. *)
Record datetime : Type := mkDatetime {
  year : nat;
  month : nat;
  day : nat;
  hour : nat;
  minute : nat;
  second : nat;
  microsecond : nat
}.

(** The ranges of the fields of a [datetime]: the year from [MINYEAR = 1]
    to [MAXYEAR = 9999], the microseconds below a million. *)
Definition valid_datetime (d : datetime) : Prop :=
  1 <= year d < 10 ^ 4 /\ 1 <= month d <= 12 /\ 1 <= day d <= 31 /\
  hour d < 24 /\ minute d < 60 /\ second d < 60 /\ microsecond d < 10 ^ 6.

(** A reading of the system clock has a year of four digits: the clock
    counts from the epoch of 1970. *)
Definition four_digit_year (d : datetime) : Prop := 1000 <= year d.

(** [d.date().isoformat()]. *)
Definition date_isoformat (d : datetime) : string :=
  Py.format_0d 4 (year d) ++ "-" ++ Py.format_0d 2 (month d) ++ "-" ++
  Py.format_0d 2 (day d).

(** [d.isoformat()] of a naive [datetime]: the fraction is printed only when
    the microseconds are not zero. *)
Definition isoformat (d : datetime) : string :=
  date_isoformat d ++ "T" ++ Py.format_0d 2 (hour d) ++ ":" ++
  Py.format_0d 2 (minute d) ++ ":" ++ Py.format_0d 2 (second d) ++
  (if microsecond d =? 0 then "" else "." ++ Py.format_0d 6 (microsecond d)).

(** ** createMsgId *)

(** [prefix[:5] if len(prefix) > 4 else prefix.zfill(5)]. *)
Definition normalize_prefix (prefix : string) : string :=
  if 4 <? String.length prefix then Py.slice_to 5 prefix else Py.zfill 5 prefix.

(** [('-{}' + '{:02d}' * 5 + '-').format(now.year, ..., now.second)]. *)
Definition timestamp_segment (now : datetime) : string :=
  "-" ++ Py.str (year now) ++ Py.format_0d 2 (month now) ++
  Py.format_0d 2 (day now) ++ Py.format_0d 2 (hour now) ++
  Py.format_0d 2 (minute now) ++ Py.format_0d 2 (second now) ++ "-".

(** The seven characters drawn from [ascii_lowercase + digits]. *)
Definition random_suffix (rnd : nat -> nat) : string :=
  Py.join (map (fun k => Py.choice (rnd k) (Py.ascii_lowercase ++ Py.digits))
               (seq 0 7)).

Definition createMsgId (now : datetime) (rnd : nat -> nat) (prefix : string)
  : string :=
  normalize_prefix prefix ++ timestamp_segment now ++ random_suffix rnd.

(** ** Words of the specification, to compare the code with *)

Module Spec.

(** [n] written with exactly [w] decimal digits, zeros in front. *)
Fixpoint zero_padded (w n : nat) : string :=
  match w with
  | 0 => ""
  | S w' => zero_padded w' (n / 10) ++ String (Py.digit_char (n mod 10)) ""
  end.

(** Left padding with zero characters to width [w]. *)
Definition left_pad_zero (w : nat) (s : string) : string :=
  Py.repeat_char "0" (w - String.length s) ++ s.

(** The prefix rule of the specification. *)
Definition normalized (prefix : string) : string :=
  if 4 <? String.length prefix then substring 0 5 prefix
  else left_pad_zero 5 prefix.

(** The prefix rule with the sign kept in front, as [zfill] has it. *)
Definition normalized_signed (prefix : string) : string :=
  if 4 <? String.length prefix then substring 0 5 prefix
  else
    match prefix with
    | String c rest =>
        if Py.is_sign c then String c (left_pad_zero 4 rest)
        else left_pad_zero 5 prefix
    | EmptyString => left_pad_zero 5 ""
    end.

(** A lowercase letter or a digit. *)
Definition lower_alnum (c : ascii) : bool :=
  let n := nat_of_ascii c in
  ((97 <=? n) && (n <=? 122)) || ((48 <=? n) && (n <=? 57)).

(** The value of a string of decimal digits. *)
Definition decimal_value (s : string) : nat :=
  fold_left (fun acc c => 10 * acc + (nat_of_ascii c - 48))
            (list_ascii_of_string s) 0.

(** The characters of [s] that are decimal digits. *)
Definition digits_only (s : string) : string :=
  string_of_list_ascii
    (filter (fun c => (48 <=? nat_of_ascii c) && (nat_of_ascii c <=? 57))
            (list_ascii_of_string s)).

(** The date [YYYY-MM-DD] and the time [YYYY-MM-DDTHH:MM:SS] of ISO 8601:
    whole seconds, no fraction, no offset. *)
Definition iso_date (year month day : nat) : string :=
  zero_padded 4 year ++ "-" ++ zero_padded 2 month ++ "-" ++ zero_padded 2 day.

Definition iso_seconds (year month day hour minute second : nat) : string :=
  iso_date year month day ++ "T" ++ zero_padded 2 hour ++ ":" ++
  zero_padded 2 minute ++ ":" ++ zero_padded 2 second.


End Spec.

(** ** Results and exceptions *)

Inductive exn : Type :=
| IndexError
| AttributeError
| TypeError
| ValueError.

Inductive result (A : Type) : Type :=
| Ok (a : A)
| Err (e : exn).

Arguments Ok {A} a.
Arguments Err {A} e.

Definition bind {A B : Type} (r : result A) (k : A -> result B) : result B :=
  match r with
  | Ok a => k a
  | Err e => Err e
  end.

Notation "x <- r ;; k" := (bind r (fun x => k))
  (at level 61, r at next level, right associativity).

(** ** The record reader *)

(** The dictionary that [get_credit_transactions] yields for one row. *)
Record Transaction : Type := mkTransaction {
  amount : string;
  iban : string;
  creditor_name : string;
  descr : string
}.

(** [{'amount': row[0], 'iban': row[1], 'creditor_name': row[2],
    'descr': row[4]}]; an index past the end of the row raises. *)
Definition transaction_of_row (row : list string) : result Transaction :=
  match nth_error row 0, nth_error row 1, nth_error row 2, nth_error row 4 with
  | Some a, Some i, Some c, Some d => Ok (mkTransaction a i c d)
  | _, _, _, _ => Err IndexError
  end.

(** [list(get_credit_transactions(filename))], on the rows that [csv.reader]
    gives for the input file: the generator is consumed row after row and
    stops at the first row that raises. *)
Fixpoint get_credit_transactions (rows : list (list string))
  : result (list Transaction) :=
  match rows with
  | [] => Ok []
  | row :: rest =>
      tx <- transaction_of_row row ;;
      txs <- get_credit_transactions rest ;;
      Ok (tx :: txs)
  end.

(** ** Element trees *)

Inductive Element : Type := mkElement {
  tag : string;
  attrib : list (string * string);
  text : option string;
  tail : option string;
  children : list Element
}.

(** A reference to a node: the child positions from the root down to it. *)
Definition path : Type := list nat.

Fixpoint get (p : path) (e : Element) : option Element :=
  match p with
  | [] => Some e
  | i :: p' =>
      match nth_error (children e) i with
      | Some c => get p' c
      | None => None
      end
  end.

Definition with_children (e : Element) (cs : list Element) : Element :=
  mkElement (tag e) (attrib e) (text e) (tail e) cs.

(** [node.text = s]. *)
Definition set_text (s : string) (e : Element) : Element :=
  mkElement (tag e) (attrib e) (Some s) (tail e) (children e).

Fixpoint list_update {A : Type} (i : nat) (f : A -> A) (l : list A) : list A :=
  match l, i with
  | [], _ => []
  | x :: l', 0 => f x :: l'
  | x :: l', S i' => x :: list_update i' f l'
  end.

(** The tree after the node that [p] refers to has been changed by [f]. *)
Fixpoint update (p : path) (f : Element -> Element) (e : Element) : Element :=
  match p with
  | [] => f e
  | i :: p' => with_children e (list_update i (update p' f) (children e))
  end.

(** The list without its element at position [k]. *)
Definition remove_nth {A : Type} (k : nat) (l : list A) : list A :=
  (firstn k l ++ skipn (S k) l)%list.

(** [parent.remove(child)] for the child at position [k], and
    [parent.append(elem)]. *)
Definition remove_child (k : nat) (parent : Element) : Element :=
  with_children parent (remove_nth k (children parent)).

Definition append_child (elem : Element) (parent : Element) : Element :=
  with_children parent (children parent ++ [elem])%list.

(** [copy.deepcopy(elem)]. *)
Fixpoint deepcopy (e : Element) : Element :=
  match e with
  | mkElement t a tx tl cs => mkElement t a tx tl (map deepcopy cs)
  end.

(** The tree with every text removed: what is left is the structure, the
    tags, the attributes and the tails. *)
Fixpoint erase (e : Element) : Element :=
  match e with
  | mkElement t a _ tl cs => mkElement t a None tl (map erase cs)
  end.

(** *** Document order *)

Fixpoint indexed {A B : Type} (f : nat -> A -> list B) (i : nat) (l : list A)
  : list B :=
  match l with
  | [] => []
  | x :: l' => (f i x ++ indexed f (S i) l')%list
  end.

Definition under (i : nat) (pe : path * Element) : path * Element :=
  (i :: fst pe, snd pe).

(** [elem.iter()]: the node and its descendants in document order, each
    with its reference. *)
Fixpoint iter (e : Element) : list (path * Element) :=
  match e with
  | mkElement _ _ _ _ cs =>
      ([], e) :: indexed (fun i c => map (under i) (iter c)) 0 cs
  end.

(** The descendants of a node, the node itself left out. *)
Definition descendants (e : Element) : list (path * Element) := tl (iter e).

Definition has_tag (t : string) (pe : path * Element) : bool :=
  (tag (snd pe) =? t)%string.

Definition below (p : path) (pe : path * Element) : path * Element :=
  ((p ++ fst pe)%list, snd pe).

(** *** ElementPath: the paths [.//A] and [.//A/B/...] *)

Inductive xpath : Type :=
| Descendant (t : string) (steps : list string).

(** The step [//t]: every descendant with tag [t] of every context node. *)
Definition select_descendant (t : string) (ctx : list (path * Element))
  : list (path * Element) :=
  flat_map (fun pe => map (below (fst pe)) (filter (has_tag t) (descendants (snd pe))))
           ctx.

(** The step [/t]: every child with tag [t] of every context node. *)
Definition select_child (t : string) (ctx : list (path * Element))
  : list (path * Element) :=
  flat_map (fun pe =>
              indexed (fun i c => if (tag c =? t)%string
                                  then [((fst pe ++ [i])%list, c)] else [])
                      0 (children (snd pe)))
           ctx.

Definition findall (x : xpath) (e : Element) : list (path * Element) :=
  match x with
  | Descendant t steps =>
      fold_left (fun ctx s => select_child s ctx) steps
                (select_descendant t [([], e)])
  end.

(** [elem.find(path)]: the first match in document order, [None] when there
    is none. *)
Definition find (x : xpath) (e : Element) : option path :=
  head (map fst (findall x e)).

(** The text of the first match of [x]; [None] when nothing matches or the
    match has no text. *)
Definition field (x : xpath) (e : Element) : option string :=
  match find x e with
  | Some p =>
      match get p e with
      | Some d => text d
      | None => None
      end
  | None => None
  end.

(** [p] comes before [q] in document order. *)
Fixpoint precedes (p q : path) : bool :=
  match p, q with
  | _, [] => false
  | [], _ :: _ => true
  | i :: p', j :: q' => (i <? j) || ((i =? j) && precedes p' q')
  end.

(** [q = pp ++ [k]]: the node at [q] is the child at position [k] of the
    node at [pp]. *)
Fixpoint child_index (pp q : path) : option nat :=
  match pp, q with
  | [], [k] => Some k
  | i :: pp', j :: q' => if i =? j then child_index pp' q' else None
  | _, _ => None
  end.

(** ** process_xml *)

(** The parsed command line. *)
Record Args : Type := mkArgs {
  input_file : string;
  output_file : string;
  id_prefix : string;
  initiating_party : string;
  debtor_name : string;
  debtor_account : string;
  debtor_bic : string
}.

Definition namespace : string :=
  "urn:iso:std:iso:20022:tech:xsd:pain.001.001.03".

(** ['{%s}Name' % namespace]. *)
Definition qn (name : string) : string := "{" ++ namespace ++ "}" ++ name.

(** ['.//{%s}A' % namespace] and ['.//{{{0}}}A/{{{0}}}B'.format(namespace)]. *)
Definition desc (name : string) : xpath := Descendant (qn name) [].
Definition desc_path (name : string) (steps : list string) : xpath :=
  Descendant (qn name) (map qn steps).

(** [node = root.find(x); node.text = v]: [find] gives [None] when nothing
    matches, and the assignment to [None.text] raises. *)
Definition stamp (x : xpath) (v : string) (root : Element) : result Element :=
  match find x root with
  | Some p => Ok (update p (set_text v) root)
  | None => Err AttributeError
  end.

(** Lines 57 to 85: the header, the payment information and the debtor.
    The result is the tree and the running [id]. *)
Definition stamp_header (args : Args) (now : datetime) (rnd : nat -> nat)
  (ntx : nat) (root : Element) : result (Element * string) :=
  let id := createMsgId now rnd (id_prefix args) in
  root <- stamp (desc "MsgId") id root ;;
  root <- stamp (desc "CreDtTm") (Py.split_head "." (isoformat now)) root ;;
  root <- stamp (desc "NbOfTxs") (Py.str ntx) root ;;
  root <- stamp (desc_path "InitgPty" ["Nm"]) (initiating_party args) root ;;
  let id := id ++ "-1" in
  root <- stamp (desc "PmtInfId") id root ;;
  root <- stamp (desc "ReqdExctnDt") (date_isoformat now) root ;;
  root <- stamp (desc_path "Dbtr" ["Nm"]) (debtor_name args) root ;;
  root <- stamp (desc_path "DbtrAcct" ["Id"; "IBAN"]) (debtor_account args) root ;;
  root <- stamp (desc_path "DbtrAgt" ["FinInstnId"; "BIC"]) (debtor_bic args) root ;;
  Ok (root, id).

(** Lines 87 to 89: the template block is looked up and taken out of the
    payment information. The result is the tree without the block, the
    reference to the payment information and the block. [remove] is called
    on the parent ([None] has no such attribute), wants an element, and
    raises when the element is not among the children of the parent. *)
Definition detach_block (root : Element)
  : result (Element * path * Element) :=
  let cdtTrfTxInf := find (desc "CdtTrfTxInf") root in
  let parent := find (desc "PmtInf") root in
  match parent, cdtTrfTxInf with
  | None, _ => Err AttributeError
  | Some _, None => Err TypeError
  | Some pp, Some q =>
      match child_index pp q, get q root with
      | Some k, Some block => Ok (update pp (remove_child k) root, pp, block)
      | _, _ => Err ValueError
      end
  end.

(** Lines 91 to 107: one filled copy of the template block. *)
Definition fill_block (id : string) (block : Element) (index : nat)
  (tx : Transaction) : result Element :=
  let elem := deepcopy block in
  let endToEndIdText := id ++ "-" ++ Py.zfill 4 (Py.str index) in
  elem <- stamp (desc "EndToEndId") endToEndIdText elem ;;
  elem <- stamp (desc "InstdAmt") (amount tx) elem ;;
  elem <- stamp (desc_path "Cdtr" ["Nm"]) (creditor_name tx) elem ;;
  elem <- stamp (desc_path "CdtrAcct" ["Id"; "IBAN"]) (iban tx) elem ;;
  elem <- stamp (desc "Ustrd") (descr tx) elem ;;
  Ok elem.

(** Lines 90 to 108: [for index, tx in enumerate(credit_transactions)],
    from [index] on. *)
Fixpoint add_transactions (id : string) (block : Element) (pp : path)
  (index : nat) (txs : list Transaction) (root : Element) : result Element :=
  match txs with
  | [] => Ok root
  | tx :: rest =>
      elem <- fill_block id block index tx ;;
      add_transactions id block pp (S index) rest
                       (update pp (append_child elem) root)
  end.

(** [process_xml(args)], on the rows of the input file and the root of the
    parsed [sepa-template.xml]. *)
Definition process_xml (args : Args) (now : datetime) (rnd : nat -> nat)
  (rows : list (list string)) (template : Element) : result Element :=
  credit_transactions <- get_credit_transactions rows ;;
  stamped <- stamp_header args now rnd (List.length credit_transactions) template ;;
  let '(root, id) := stamped in
  detached <- detach_block root ;;
  let '(root, pp, block) := detached in
  add_transactions id block pp 0 credit_transactions root.

(** ** The script *)

(** The files written so far, the latest first: name and document. *)
Definition files : Type := list (string * Element).

(** [tree = process_xml(args); tree.write(args.output_file, method='html')]:
    the outcome of the run and the files after it. *)
Definition main (args : Args) (now : datetime) (rnd : nat -> nat)
  (rows : list (list string)) (template : Element) (fs : files)
  : result unit * files :=
  match process_xml args now rnd rows template with
  | Ok tree => (Ok tt, (output_file args, tree) :: fs)
  | Err e => (Err e, fs)
  end.

(** ** The document that is built *)

(** The payment information of a document and its transaction blocks. *)
Definition payment_information (doc : Element) : option Element :=
  match find (desc "PmtInf") doc with
  | Some pp => get pp doc
  | None => None
  end.

Definition is_block (e : Element) : bool := (tag e =? qn "CdtTrfTxInf")%string.

Definition transaction_blocks (doc : Element) : list Element :=
  match payment_information doc with
  | Some parent => filter is_block (children parent)
  | None => []
  end.

(** *** What the specification asks of the template *)

(** The first match of [.//name] comes before the transaction block in
    document order. *)
Definition before_block (name : string) (template : Element) : bool :=
  match find (desc name) template, find (desc "CdtTrfTxInf") template with
  | Some p, Some q => precedes p q
  | _, _ => false
  end.

(** The payment information holds exactly one transaction block. *)
Definition one_block (template : Element) : bool :=
  match payment_information template with
  | Some parent => List.length (filter is_block (children parent)) =? 1
  | None => false
  end.

(** The nodes that every run looks up, and the nodes that are looked up in
    the copy of the block for each transaction. *)
Definition header_lookups : list xpath :=
  [desc "MsgId"; desc "CreDtTm"; desc "NbOfTxs"; desc_path "InitgPty" ["Nm"];
   desc "PmtInfId"; desc "ReqdExctnDt"; desc_path "Dbtr" ["Nm"];
   desc_path "DbtrAcct" ["Id"; "IBAN"]; desc_path "DbtrAgt" ["FinInstnId"; "BIC"]].

Definition document_lookups : list xpath :=
  (header_lookups ++ [desc "CdtTrfTxInf"; desc "PmtInf"])%list.

(** [q] is the reference of [p] or of a node above it. *)
Fixpoint is_prefix (q p : path) : bool :=
  match q, p with
  | [], _ => true
  | _ :: _, [] => false
  | i :: q', j :: p' => (i =? j) && is_prefix q' p'
  end.

(** None of the header, party and debtor fields that are looked up lies
    inside the transaction block. *)
Definition headers_outside_block (template : Element) : bool :=
  match find (desc "CdtTrfTxInf") template with
  | Some q =>
      forallb (fun x => match find x template with
                        | Some p => negb (is_prefix q p)
                        | None => true
                        end) header_lookups
  | None => false
  end.

Definition block_lookups : list xpath :=
  [desc "EndToEndId"; desc "InstdAmt"; desc_path "Cdtr" ["Nm"];
   desc_path "CdtrAcct" ["Id"; "IBAN"]; desc "Ustrd"].

Definition present (x : xpath) (e : Element) : bool :=
  match find x e with
  | Some _ => true
  | None => false
  end.

(** ** A template and a run to try the definitions on *)

Definition leaf (name : string) : Element :=
  mkElement (qn name) [] None None [].

Definition node (name : string) (cs : list Element) : Element :=
  mkElement (qn name) [] None None cs.

Definition sample_block : Element :=
  node "CdtTrfTxInf"
    [node "PmtId" [leaf "EndToEndId"];
     node "Amt" [mkElement (qn "InstdAmt") [("Ccy", "EUR")] None None []];
     node "Cdtr" [leaf "Nm"];
     node "CdtrAcct" [node "Id" [leaf "IBAN"]];
     node "RmtInf" [leaf "Ustrd"]].

Definition sample_template : Element :=
  node "Document"
    [node "CstmrCdtTrfInitn"
       [node "GrpHdr"
          [leaf "MsgId"; leaf "CreDtTm"; leaf "NbOfTxs";
           node "InitgPty" [leaf "Nm"]];
        node "PmtInf"
          [leaf "PmtInfId";
           mkElement (qn "PmtMtd") [] (Some "TRF") None [];
           leaf "ReqdExctnDt";
           node "Dbtr" [leaf "Nm"];
           node "DbtrAcct" [node "Id" [leaf "IBAN"]];
           node "DbtrAgt" [node "FinInstnId" [leaf "BIC"]];
           sample_block]]].

Definition sample_args : Args :=
  mkArgs "in.csv" "out.xml" "ABCDE" "ACME" "ACME BV" "NL00RABO0000000001"
         "RABONL2U".

Definition sample_rows : list (list string) :=
  [["300.00"; "NL23RABO0123456789"; "A. de Vries"; "Wages";
    "Wages1 Feb - 28 Feb"];
   ["12.50"; "NL91ABNA0417164300"; "B. Jansen"; "Rent"; "Rent March"]].

Definition sample_now : datetime := mkDatetime 2024 2 29 9 5 7 123456.
Definition sample_rnd (k : nat) : nat := 7 * k + 3.

(** The document of the sample run. *)
Definition sample_out : Element :=
  match process_xml sample_args sample_now sample_rnd sample_rows
                    sample_template with
  | Ok tree => tree
  | Err _ => sample_template
  end.

(** A template whose transaction block has no remittance text. *)
Definition block_without_ustrd : Element :=
  node "CdtTrfTxInf"
    [node "PmtId" [leaf "EndToEndId"];
     node "Amt" [mkElement (qn "InstdAmt") [("Ccy", "EUR")] None None []];
     node "Cdtr" [leaf "Nm"];
     node "CdtrAcct" [node "Id" [leaf "IBAN"]]].

Definition template_without_ustrd : Element :=
  node "Document"
    [node "CstmrCdtTrfInitn"
       [node "GrpHdr"
          [leaf "MsgId"; leaf "CreDtTm"; leaf "NbOfTxs";
           node "InitgPty" [leaf "Nm"]];
        node "PmtInf"
          [leaf "PmtInfId";
           leaf "ReqdExctnDt";
           node "Dbtr" [leaf "Nm"];
           node "DbtrAcct" [node "Id" [leaf "IBAN"]];
           node "DbtrAgt" [node "FinInstnId" [leaf "BIC"]];
           block_without_ustrd]]].

(** ** Notions used in the statements *)

(** A node with its text removed, under its reference. *)
Definition erased (pe : path * Element) : path * Element :=
  (fst pe, erase (snd pe)).

(** The tag of the nodes that a path selects. *)
Definition final_tag (x : xpath) : string :=
  match x with
  | Descendant t steps => last steps t
  end.

(** The reference of the first node with tag [t] in a list of nodes. *)
Definition first_in (t : string) (l : list (path * Element)) : option path :=
  head (map fst (filter (has_tag t) l)).

(** A parent whose list of children is changed by [h]. *)
Definition edit_children (h : list Element -> list Element) (parent : Element)
  : Element :=
  with_children parent (h (children parent)).

(** The transaction block of the template. *)
Definition template_block (template : Element) : option Element :=
  match find (desc "CdtTrfTxInf") template with
  | Some q => get q template
  | None => None
  end.

(** The text of the node at [p], when there is such a node. *)
Definition text_at (p : path) (e : Element) : option (option string) :=
  option_map text (get p e).

(** A chain of lookup-and-assign steps, each on the tree that the step
    before it has left; it stops at the first lookup that finds nothing. *)
Fixpoint stamp_all (l : list (xpath * string)) (e : Element) : result Element :=
  match l with
  | [] => Ok e
  | (x, v) :: l' => e' <- stamp x v e ;; stamp_all l' e'
  end.

(** The steps of [stamp_header] and of [fill_block], in their order. *)
Definition header_stamps (args : Args) (now : datetime) (rnd : nat -> nat)
  (ntx : nat) : list (xpath * string) :=
  [(desc "MsgId", createMsgId now rnd (id_prefix args));
   (desc "CreDtTm", Py.split_head "." (isoformat now));
   (desc "NbOfTxs", Py.str ntx);
   (desc_path "InitgPty" ["Nm"], initiating_party args);
   (desc "PmtInfId", createMsgId now rnd (id_prefix args) ++ "-1");
   (desc "ReqdExctnDt", date_isoformat now);
   (desc_path "Dbtr" ["Nm"], debtor_name args);
   (desc_path "DbtrAcct" ["Id"; "IBAN"], debtor_account args);
   (desc_path "DbtrAgt" ["FinInstnId"; "BIC"], debtor_bic args)].

Definition block_stamps (id : string) (index : nat) (tx : Transaction)
  : list (xpath * string) :=
  [(desc "EndToEndId", id ++ "-" ++ Py.zfill 4 (Py.str index));
   (desc "InstdAmt", amount tx);
   (desc_path "Cdtr" ["Nm"], creditor_name tx);
   (desc_path "CdtrAcct" ["Id"; "IBAN"], iban tx);
   (desc "Ustrd", descr tx)].

(** The transaction block that [find] gives is a child of the payment
    information that [find] gives: what [parent.remove] needs. *)
Definition block_in_payment_information (template : Element) : bool :=
  match find (desc "PmtInf") template, find (desc "CdtTrfTxInf") template with
  | Some pp, Some q =>
      match child_index pp q with
      | Some _ => true
      | None => false
      end
  | _, _ => false
  end.

(** The first match of the path [x] comes before the transaction block in
    document order. *)
Definition lookup_before_block (x : xpath) (template : Element) : bool :=
  match find x template, find (desc "CdtTrfTxInf") template with
  | Some p, Some q => precedes p q
  | _, _ => false
  end.

(** The text, in the document [doc], of the node that the path [x] finds
    in the template. *)
Definition node_text (x : xpath) (template doc : Element) : option string :=
  match find x template with
  | Some p =>
      match get p doc with
      | Some d => text d
      | None => None
      end
  | None => None
  end.

(** A template without transaction block, and one whose transaction block
    is not a child of the payment information but lies one level deeper. *)
Definition template_without_block : Element :=
  node "Document"
    [node "CstmrCdtTrfInitn"
       [node "GrpHdr"
          [leaf "MsgId"; leaf "CreDtTm"; leaf "NbOfTxs";
           node "InitgPty" [leaf "Nm"]];
        node "PmtInf"
          [leaf "PmtInfId";
           leaf "ReqdExctnDt";
           node "Dbtr" [leaf "Nm"];
           node "DbtrAcct" [node "Id" [leaf "IBAN"]];
           node "DbtrAgt" [node "FinInstnId" [leaf "BIC"]]]]].

Definition template_nested_block : Element :=
  node "Document"
    [node "CstmrCdtTrfInitn"
       [node "GrpHdr"
          [leaf "MsgId"; leaf "CreDtTm"; leaf "NbOfTxs";
           node "InitgPty" [leaf "Nm"]];
        node "PmtInf"
          [leaf "PmtInfId";
           leaf "ReqdExctnDt";
           node "Dbtr" [leaf "Nm"];
           node "DbtrAcct" [node "Id" [leaf "IBAN"]];
           node "DbtrAgt" [node "FinInstnId" [leaf "BIC"]];
           node "Batch" [sample_block]]]].

(** A template with two transaction blocks and a further element behind
    them in the payment information. *)
Definition template_two_blocks : Element :=
  node "Document"
    [node "CstmrCdtTrfInitn"
       [node "GrpHdr"
          [leaf "MsgId"; leaf "CreDtTm"; leaf "NbOfTxs";
           node "InitgPty" [leaf "Nm"]];
        node "PmtInf"
          [leaf "PmtInfId";
           leaf "ReqdExctnDt";
           node "Dbtr" [leaf "Nm"];
           node "DbtrAcct" [node "Id" [leaf "IBAN"]];
           node "DbtrAgt" [node "FinInstnId" [leaf "BIC"]];
           sample_block;
           sample_block;
           leaf "Trailer"]]].

(** A template whose group header has no transaction count. *)
Definition template_without_count : Element :=
  node "Document"
    [node "CstmrCdtTrfInitn"
       [node "GrpHdr"
          [leaf "MsgId"; leaf "CreDtTm"; node "InitgPty" [leaf "Nm"]];
        node "PmtInf"
          [leaf "PmtInfId";
           leaf "ReqdExctnDt";
           node "Dbtr" [leaf "Nm"];
           node "DbtrAcct" [node "Id" [leaf "IBAN"]];
           node "DbtrAgt" [node "FinInstnId" [leaf "BIC"]];
           sample_block]]].

(** The document of the sample run on the template with two blocks. *)
Definition two_blocks_out : Element :=
  match process_xml sample_args sample_now sample_rnd sample_rows
                    template_two_blocks with
  | Ok tree => tree
  | Err _ => template_two_blocks
  end.

(** The sample rows with another fourth field and a sixth field. *)
Definition sample_rows_other : list (list string) :=
  [["300.00"; "NL23RABO0123456789"; "A. de Vries"; "Salary";
    "Wages1 Feb - 28 Feb"; "paid"];
   ["12.50"; "NL91ABNA0417164300"; "B. Jansen"; ""; "Rent March"]].

(** Two rows agree on the fields that the reader takes. *)
Definition same_fields_read (row row' : list string) : Prop :=
  (nth_error row 0 = nth_error row' 0) /\
  (nth_error row 1 = nth_error row' 1) /\
  (nth_error row 2 = nth_error row' 2) /\
  (nth_error row 4 = nth_error row' 4).

(** A property of every character of a string. *)
Fixpoint all_chars (f : ascii -> bool) (s : string) : bool :=
  match s with
  | EmptyString => true
  | String c rest => f c && all_chars f rest
  end.

Definition is_digit (c : ascii) : bool :=
  (48 <=? nat_of_ascii c) && (nat_of_ascii c <=? 57).

(** * Properties *)

(** ** Strings *)

Section Strings.

Lemma length_append (s t : string) :
  String.length (s ++ t) = String.length s + String.length t.
Proof. induction s as [|c s IH]; simpl; [reflexivity | now rewrite IH]. Qed.

Lemma append_assoc (s t u : string) : (s ++ t) ++ u = s ++ t ++ u.
Proof. induction s as [|c s IH]; simpl; [reflexivity | now rewrite IH]. Qed.

Lemma append_nil_r (s : string) : s ++ "" = s.
Proof. induction s as [|c s IH]; simpl; [reflexivity | now rewrite IH]. Qed.

Lemma list_of_append (s t : string) :
  list_ascii_of_string (s ++ t)
  = (list_ascii_of_string s ++ list_ascii_of_string t)%list.
Proof. induction s as [|c s IH]; simpl; [reflexivity | now rewrite IH]. Qed.

Lemma length_repeat_char (c : ascii) (k : nat) :
  String.length (Py.repeat_char c k) = k.
Proof. induction k as [|k IH]; simpl; [reflexivity | now rewrite IH]. Qed.

Lemma length_string_of_list (l : list ascii) :
  String.length (string_of_list_ascii l) = List.length l.
Proof. induction l as [|c l IH]; simpl; [reflexivity | now rewrite IH]. Qed.

Lemma all_chars_append (f : ascii -> bool) (s t : string) :
  all_chars f (s ++ t) = all_chars f s && all_chars f t.
Proof.
  induction s as [|c s IH]; simpl; [reflexivity|].
  now rewrite IH, andb_assoc.
Qed.

Lemma all_chars_repeat (f : ascii -> bool) (c : ascii) (k : nat) :
  f c = true -> all_chars f (Py.repeat_char c k) = true.
Proof. intros Hc. induction k as [|k IH]; simpl; [reflexivity | now rewrite Hc, IH]. Qed.

Lemma all_chars_weaken (f g : ascii -> bool) (s : string) :
  (forall c, f c = true -> g c = true) ->
  all_chars f s = true -> all_chars g s = true.
Proof.
  intros Hfg. induction s as [|c s IH]; simpl; [reflexivity|].
  rewrite andb_true_iff. intros [Hc Hs]. now rewrite (Hfg _ Hc), IH.
Qed.


Lemma substring_append (s t : string) :
  substring 0 (String.length s) (s ++ t) = s.
Proof. induction s as [|c s IH]; simpl; [now destruct t | now rewrite IH]. Qed.

Lemma substring_whole (n : nat) (s : string) :
  String.length s <= n -> substring 0 n s = s.
Proof.
  revert n. induction s as [|c s IH]; intros [|n] H; simpl in *;
    try reflexivity; try lia.
  rewrite IH; [reflexivity | lia].
Qed.

Lemma length_substring (n : nat) (s : string) :
  n <= String.length s -> String.length (substring 0 n s) = n.
Proof.
  revert n. induction s as [|c s IH]; intros [|n] H; simpl in *;
    try reflexivity; try lia.
  rewrite IH; [reflexivity | lia].
Qed.

(** A string begins with each of its [s[:n]]. *)
Lemma substring_prefix (n : nat) (s : string) :
  exists rest, s = substring 0 n s ++ rest.
Proof.
  revert n. induction s as [|c s IH]; intros [|n]; simpl.
  - now exists "".
  - now exists "".
  - now exists (String c s).
  - destruct (IH n) as [rest Hrest]. exists rest. now rewrite <- Hrest.
Qed.

(** *** Decimal digits *)

Lemma digit_char_value (d : nat) : d < 10 -> nat_of_ascii (Py.digit_char d) = 48 + d.
Proof. intros H. unfold Py.digit_char. apply nat_ascii_embedding. lia. Qed.

Lemma digit_char_is_digit (d : nat) : d < 10 -> is_digit (Py.digit_char d) = true.
Proof.
  intros H. unfold is_digit. rewrite (digit_char_value d H).
  apply andb_true_iff. split; apply Nat.leb_le; lia.
Qed.

Lemma digits_of_fuel (n : nat) :
  forall f, n < f ->
    Py.digits_of f n
    = if n <? 10 then String (Py.digit_char n) ""
      else Py.str (n / 10) ++ String (Py.digit_char (n mod 10)) "".
Proof.
  induction n as [n IH] using lt_wf_ind. intros [|f] Hf; [lia|].
  cbn [Py.digits_of]. destruct (n <? 10) eqn:Hn; [reflexivity|].
  apply Nat.ltb_ge in Hn.
  assert (Hdiv : n / 10 < n) by (apply Nat.div_lt; lia).
  f_equal. unfold Py.str.
  rewrite (IH (n / 10) Hdiv f) by lia.
  now rewrite (IH (n / 10) Hdiv (S (n / 10))) by lia.
Qed.

(** The equation of [str]: the last digit after the digits of the tenth. *)
Lemma str_unfold (n : nat) :
  Py.str n = if n <? 10 then String (Py.digit_char n) ""
             else Py.str (n / 10) ++ String (Py.digit_char (n mod 10)) "".
Proof. unfold Py.str at 1. apply digits_of_fuel. lia. Qed.

Lemma str_all_digits (n : nat) : all_chars is_digit (Py.str n) = true.
Proof.
  induction n as [n IH] using lt_wf_ind. rewrite str_unfold.
  destruct (n <? 10) eqn:Hn.
  - apply Nat.ltb_lt in Hn. cbn [all_chars]. now rewrite digit_char_is_digit.
  - apply Nat.ltb_ge in Hn. rewrite all_chars_append, IH by (apply Nat.div_lt; lia).
    cbn [all_chars]. rewrite digit_char_is_digit; [reflexivity|].
    apply Nat.mod_upper_bound. lia.
Qed.

Lemma str_length_pos (n : nat) : 1 <= String.length (Py.str n).
Proof.
  rewrite str_unfold. destruct (n <? 10); [cbn [String.length]; lia|].
  rewrite length_append. cbn [String.length]. lia.
Qed.

Lemma zero_padded_zero (w : nat) : Spec.zero_padded w 0 = Py.repeat_char "0" w.
Proof.
  induction w as [|w IH]; [reflexivity|].
  simpl Spec.zero_padded. change (0 / 10) with 0. rewrite IH.
  clear IH. induction w as [|w IH]; [reflexivity|].
  simpl. simpl in IH. now rewrite IH.
Qed.

Lemma length_zero_padded (w n : nat) : String.length (Spec.zero_padded w n) = w.
Proof.
  revert n. induction w as [|w IH]; intros n; cbn [Spec.zero_padded];
    [reflexivity|].
  rewrite length_append, IH. cbn [String.length]. lia.
Qed.

Lemma zero_padded_all_digits (w n : nat) :
  all_chars is_digit (Spec.zero_padded w n) = true.
Proof.
  revert n. induction w as [|w IH]; intros n; cbn [Spec.zero_padded];
    [reflexivity|].
  rewrite all_chars_append, IH. cbn [all_chars].
  rewrite digit_char_is_digit; [reflexivity|].
  apply Nat.mod_upper_bound. lia.
Qed.

(** Zero padding of [str n] to the width [w] gives the [w] digits of [n],
    when [n] has at most [w] digits. *)
Lemma format_0d_zero_padded (w n : nat) :
  1 <= w -> n < 10 ^ w -> Py.format_0d w n = Spec.zero_padded w n.
Proof.
  unfold Py.format_0d. revert n.
  induction w as [|w IH]; intros n Hw Hn; [lia|].
  rewrite Nat.pow_succ_r' in Hn.
  rewrite str_unfold. cbn [Spec.zero_padded]. destruct (n <? 10) eqn:H10.
  - apply Nat.ltb_lt in H10. cbn [String.length].
    rewrite (Nat.div_small n 10), (Nat.mod_small n 10) by lia.
    rewrite zero_padded_zero. now replace (S w - 1) with w by lia.
  - apply Nat.ltb_ge in H10.
    assert (Hw' : 1 <= w).
    { destruct w as [|w]; [rewrite Nat.pow_0_r in Hn; lia | lia]. }
    assert (Hdiv : n / 10 < 10 ^ w).
    { apply Nat.Div0.div_lt_upper_bound. lia. }
    rewrite <- (IH (n / 10) Hw' Hdiv).
    rewrite length_append. cbn [String.length].
    replace (S w - (String.length (Py.str (n / 10)) + 1))
      with (w - String.length (Py.str (n / 10))) by lia.
    now rewrite append_assoc.
Qed.

Lemma str_length_lower (w n : nat) :
  1 <= w -> 10 ^ (w - 1) <= n -> w <= String.length (Py.str n).
Proof.
  revert n. induction w as [|w IH]; intros n Hw Hlo; [lia|].
  replace (S w - 1) with w in Hlo by lia.
  destruct w as [|w]; [apply str_length_pos|].
  rewrite Nat.pow_succ_r' in Hlo.
  assert (1 <= 10 ^ w) by (apply Nat.neq_0_lt_0, Nat.pow_nonzero; lia).
  rewrite str_unfold. destruct (n <? 10) eqn:H10.
  - apply Nat.ltb_lt in H10. lia.
  - rewrite length_append. cbn [String.length].
    assert (S w <= String.length (Py.str (n / 10))); [|lia].
    apply IH; [lia|]. replace (S w - 1) with w by lia.
    apply Nat.div_le_lower_bound; lia.
Qed.

(** A number of exactly [w] digits is printed by [str] as its [w] digits. *)
Lemma str_zero_padded (w n : nat) :
  1 <= w -> 10 ^ (w - 1) <= n -> n < 10 ^ w -> Py.str n = Spec.zero_padded w n.
Proof.
  intros Hw Hlo Hhi. rewrite <- (format_0d_zero_padded w n Hw Hhi).
  unfold Py.format_0d. pose proof (str_length_lower w n Hw Hlo).
  replace (w - String.length (Py.str n)) with 0 by lia. reflexivity.
Qed.

(** *** The value of the digits *)

Lemma decimal_value_snoc (s : string) (c : ascii) :
  Spec.decimal_value (s ++ String c "")
  = 10 * Spec.decimal_value s + (nat_of_ascii c - 48).
Proof.
  unfold Spec.decimal_value. rewrite list_of_append, fold_left_app.
  reflexivity.
Qed.

(** [str n] is the decimal representation of [n]. *)
Lemma decimal_value_str (n : nat) : Spec.decimal_value (Py.str n) = n.
Proof.
  induction n as [n IH] using lt_wf_ind. rewrite str_unfold.
  destruct (n <? 10) eqn:Hn.
  - apply Nat.ltb_lt in Hn. unfold Spec.decimal_value.
    cbn [list_ascii_of_string fold_left]. rewrite (digit_char_value n Hn). lia.
  - apply Nat.ltb_ge in Hn. rewrite decimal_value_snoc.
    rewrite IH by (apply Nat.div_lt; lia).
    rewrite digit_char_value by (apply Nat.mod_upper_bound; lia).
    pose proof (Nat.div_mod_eq n 10). lia.
Qed.

(** *** The text before the first separator *)

Lemma split_head_append (sep : ascii) (s t : string) :
  all_chars (fun c => negb (c =? sep)%char) s = true ->
  Py.split_head sep (s ++ t) = s ++ Py.split_head sep t.
Proof.
  induction s as [|c s IH]; cbn [all_chars Py.split_head append];
    [reflexivity|].
  rewrite andb_true_iff. intros [Hc Hs].
  apply negb_true_iff in Hc. now rewrite Hc, IH.
Qed.

Lemma digit_not_dot (c : ascii) :
  is_digit c = true -> negb (c =? ".")%char = true.
Proof.
  intros H. destruct (Ascii.eqb_spec c ".") as [->|_];
    [discriminate H | reflexivity].
Qed.

Lemma zero_padded_no_dot (w n : nat) :
  all_chars (fun c => negb (c =? ".")%char) (Spec.zero_padded w n) = true.
Proof.
  apply (all_chars_weaken is_digit); [apply digit_not_dot|].
  apply zero_padded_all_digits.
Qed.

(** *** The digits of a text *)

Lemma string_of_list_app (l l' : list ascii) :
  string_of_list_ascii (l ++ l')%list
  = string_of_list_ascii l ++ string_of_list_ascii l'.
Proof.
  induction l as [|c l IH]; cbn [app string_of_list_ascii append];
    [reflexivity | now rewrite IH].
Qed.

Lemma digits_only_append (s t : string) :
  Spec.digits_only (s ++ t) = Spec.digits_only s ++ Spec.digits_only t.
Proof.
  unfold Spec.digits_only.
  now rewrite list_of_append, filter_app, string_of_list_app.
Qed.

Lemma digits_only_digits (s : string) :
  all_chars is_digit s = true -> Spec.digits_only s = s.
Proof.
  unfold Spec.digits_only.
  induction s as [|c s IH]; cbn [all_chars list_ascii_of_string filter];
    [reflexivity|].
  rewrite andb_true_iff. intros [Hc Hs]. unfold is_digit in Hc. rewrite Hc.
  cbn [string_of_list_ascii]. now rewrite IH.
Qed.

End Strings.

(** ** The message identifier *)

Section MessageId.

Variable now : datetime.
Variable rnd : nat -> nat.

Lemma length_normalize_prefix (prefix : string) :
  String.length (normalize_prefix prefix) = 5.
Proof.
  unfold normalize_prefix, Py.slice_to, Py.zfill.
  destruct (4 <? String.length prefix) eqn:Hlen.
  - apply Nat.ltb_lt in Hlen. apply length_substring. lia.
  - apply Nat.ltb_ge in Hlen.
    destruct (5 <=? String.length prefix) eqn:H5;
      [apply Nat.leb_le in H5; lia|].
    destruct prefix as [|c rest].
    + now rewrite length_repeat_char.
    + destruct (Py.is_sign c); cbn [String.length] in *;
        repeat (rewrite ?length_append, ?length_repeat_char;
                cbn [String.length]); lia.
Qed.

(** [zfill] pads on the left, behind the sign when the prefix has one. *)
Lemma normalize_prefix_signed (prefix : string) :
  normalize_prefix prefix = Spec.normalized_signed prefix.
Proof.
  unfold normalize_prefix, Spec.normalized_signed, Py.slice_to, Py.zfill,
    Spec.left_pad_zero.
  destruct (4 <? String.length prefix) eqn:Hlen; [reflexivity|].
  apply Nat.ltb_ge in Hlen.
  destruct (5 <=? String.length prefix) eqn:H5;
    [apply Nat.leb_le in H5; lia|].
  destruct prefix as [|c rest]; [reflexivity|].
  destruct (Py.is_sign c); [|reflexivity].
  cbn [String.length]. reflexivity.
Qed.

(** A prefix without a sign in front is padded as the specification says. *)
Lemma normalized_signed_unsigned (prefix : string) :
  match prefix with
  | String c _ => Py.is_sign c = false
  | EmptyString => True
  end ->
  Spec.normalized_signed prefix = Spec.normalized prefix.
Proof.
  unfold Spec.normalized_signed, Spec.normalized.
  destruct prefix as [|c rest]; [reflexivity|].
  intros ->. reflexivity.
Qed.

Lemma timestamp_segment_digits :
  valid_datetime now -> four_digit_year now ->
  timestamp_segment now
  = "-" ++ Spec.zero_padded 4 (year now) ++ Spec.zero_padded 2 (month now) ++
    Spec.zero_padded 2 (day now) ++ Spec.zero_padded 2 (hour now) ++
    Spec.zero_padded 2 (minute now) ++ Spec.zero_padded 2 (second now) ++ "-".
Proof.
  intros (Hy & Hm & Hd & Hh & Hmi & Hs & _) H4. unfold four_digit_year in H4.
  unfold timestamp_segment.
  rewrite (str_zero_padded 4 (year now));
    [|lia | change (10 ^ (4 - 1)) with 1000; exact H4 | apply Hy].
  rewrite !format_0d_zero_padded by (change (10 ^ 2) with 100; lia).
  reflexivity.
Qed.

Lemma length_timestamp_segment :
  valid_datetime now -> four_digit_year now ->
  String.length (timestamp_segment now) = 16.
Proof.
  intros Hv H4. rewrite (timestamp_segment_digits Hv H4).
  repeat (rewrite ?length_append, ?length_zero_padded; cbn [String.length]).
  reflexivity.
Qed.




Lemma length_random_suffix : String.length (random_suffix rnd) = 7.
Proof. reflexivity. Qed.


End MessageId.

(** The alphabet of the random suffix: 36 symbols without repetition, the
    lowercase letters and the digits. *)
Lemma alphabet_36_symbols :
  String.length (Py.ascii_lowercase ++ Py.digits) = 36 /\
  NoDup (list_ascii_of_string (Py.ascii_lowercase ++ Py.digits)) /\
  all_chars Spec.lower_alnum (Py.ascii_lowercase ++ Py.digits) = true.
Proof.
  split; [reflexivity|]. split; [|reflexivity].
  repeat (constructor; [cbn; intuition discriminate|]). constructor.
Qed.

(** C1, as the specification states it, fails: the message identifier of
    the sample clock reading and the prefix ["ABCDE"] is not 35 characters
    long. *)
Lemma createMsgId_length_counterexample :
  String.length (createMsgId sample_now sample_rnd "ABCDE") <> 35.
Proof. vm_compute. discriminate. Qed.

(** C1, amended. The message identifier is 28 characters long, whatever
    the prefix: 5 of the prefix, 16 of the timestamp between its dashes, 7
    drawn at random. It is not 35 characters long: 35 is the length that
    the end-to-end identifier made from it reaches. *)
Theorem createMsgId_length_28 (now : datetime) (rnd : nat -> nat)
  (prefix : string) :
  valid_datetime now -> four_digit_year now ->
  String.length (createMsgId now rnd prefix) = 28 /\
  String.length (createMsgId now rnd prefix) <> 35.
Proof.
  intros Hv H4. unfold createMsgId.
  rewrite !length_append, length_normalize_prefix,
    (length_timestamp_segment now Hv H4), length_random_suffix.
  split; [reflexivity | discriminate].
Qed.

Lemma sample_now_valid : valid_datetime sample_now /\ four_digit_year sample_now.
Proof.
  unfold valid_datetime, four_digit_year, sample_now; cbn [year month day hour minute second microsecond].
  repeat split; try lia; apply Nat.ltb_lt; vm_compute; reflexivity.
Qed.

Lemma createMsgId_length_28_witness :
  String.length (createMsgId sample_now sample_rnd "ABCDE") = 28 /\
  String.length (createMsgId sample_now sample_rnd "ABCDE") <> 35.
Proof.
  apply (createMsgId_length_28 sample_now sample_rnd "ABCDE");
    apply sample_now_valid.
Defined.

(** C4, as the specification states it, fails for a prefix with a sign in
    front: [zfill] keeps the sign before the zeros. *)
Lemma createMsgId_prefix_counterexample :
  ~ exists rest,
      createMsgId sample_now sample_rnd "-AB" = Spec.normalized "-AB" ++ rest.
Proof. intros [rest H]. vm_compute in H. discriminate H. Qed.

(** C4, amended. The message identifier begins with the prefix brought to
    5 characters: the first 5 characters of a prefix longer than 4, and
    otherwise the prefix padded with zeros on the left, after its leading
    sign ('+' or '-') when it has one. For a prefix with no sign in front
    this is the rule of the specification. *)
Theorem createMsgId_prefix_normalized (now : datetime) (rnd : nat -> nat)
  (prefix : string) :
  (exists rest,
     createMsgId now rnd prefix = Spec.normalized_signed prefix ++ rest) /\
  String.length (Spec.normalized_signed prefix) = 5 /\
  (match prefix with
   | String c _ => Py.is_sign c = false
   | EmptyString => True
   end -> Spec.normalized_signed prefix = Spec.normalized prefix) /\
  (exists rest, createMsgId now rnd "AB" = "000AB" ++ rest) /\
  (exists rest, createMsgId now rnd "ABCDEFG" = "ABCDE" ++ rest) /\
  (exists rest, createMsgId now rnd "" = "00000" ++ rest).
Proof.
  assert (Hgen : forall p, exists rest,
             createMsgId now rnd p = Spec.normalized_signed p ++ rest).
  { intros p. exists (timestamp_segment now ++ random_suffix rnd).
    unfold createMsgId. now rewrite normalize_prefix_signed. }
  split; [apply Hgen|].
  split; [rewrite <- normalize_prefix_signed; apply length_normalize_prefix|].
  split; [apply normalized_signed_unsigned|].
  split; [apply (Hgen "AB")|]. split; [apply (Hgen "ABCDEFG") | apply (Hgen "")].
Qed.



(** ** Element trees *)

Section Trees.

(** Induction on a tree, with the property known of every child. *)
Lemma Element_induction (P : Element -> Prop) :
  (forall t a tx tl cs, Forall P cs -> P (mkElement t a tx tl cs)) ->
  forall e, P e.
Proof.
  intros H. fix IH 1. intros [t a tx tl cs]. apply H.
  induction cs as [|c cs IHcs]; constructor; [apply IH | exact IHcs].
Qed.

Lemma deepcopy_id (e : Element) : deepcopy e = e.
Proof.
  revert e. apply Element_induction. intros t a tx tl cs IH. cbn [deepcopy].
  f_equal. induction IH as [|c cs Hc _ IHcs]; cbn [map]; [reflexivity|].
  now rewrite Hc, IHcs.
Qed.

Lemma tag_erase (e : Element) : tag (erase e) = tag e.
Proof. now destruct e. Qed.

Lemma children_erase (e : Element) : children (erase e) = map erase (children e).
Proof. now destruct e. Qed.

Lemma erase_set_text (s : string) (e : Element) : erase (set_text s e) = erase e.
Proof. now destruct e. Qed.

Lemma erase_with_children (e : Element) (cs : list Element) :
  erase (with_children e cs) = with_children (erase e) (map erase cs).
Proof. now destruct e. Qed.

Lemma with_children_same (e : Element) : with_children e (children e) = e.
Proof. now destruct e. Qed.

Lemma map_list_update {A B : Type} (g : A -> B) (f : A -> A) (i : nat)
  (l : list A) :
  (forall x, g (f x) = g x) -> map g (list_update i f l) = map g l.
Proof.
  intros Hf. revert i. induction l as [|x l IH]; intros [|i]; cbn;
    try reflexivity; [now rewrite Hf | now rewrite IH].
Qed.

(** A change of the tree that keeps the structure of the changed node keeps
    the structure of the tree. *)
Lemma erase_update (p : path) (f : Element -> Element) (e : Element) :
  (forall x, erase (f x) = erase x) -> erase (update p f e) = erase e.
Proof.
  intros Hf. revert e. induction p as [|i p IH]; intros e; cbn [update];
    [apply Hf|].
  rewrite erase_with_children, (map_list_update erase _ i _ IH).
  rewrite <- children_erase. apply with_children_same.
Qed.

Lemma nth_error_list_update {A : Type} (f : A -> A) (i j : nat) (l : list A) :
  nth_error (list_update i f l) j
  = if i =? j then option_map f (nth_error l j) else nth_error l j.
Proof.
  revert i j. induction l as [|x l IH]; intros i j.
  - destruct i, j; cbn; try reflexivity. now destruct (i =? j).
  - destruct i, j; cbn; try reflexivity. apply IH.
Qed.

Lemma get_app (p q : path) (e : Element) :
  get (p ++ q)%list e
  = match get p e with
    | Some d => get q d
    | None => None
    end.
Proof.
  revert e. induction p as [|i p IH]; intros e; cbn; [reflexivity|].
  destruct (nth_error (children e) i); [apply IH | reflexivity].
Qed.

(** The changed node is found where it was. *)
Lemma get_update_same (p : path) (f : Element -> Element) (e d : Element) :
  get p e = Some d -> get p (update p f e) = Some (f d).
Proof.
  revert e. induction p as [|i p IH]; intros e; cbn [get update].
  - now intros [= ->].
  - cbn [children with_children]. rewrite nth_error_list_update, Nat.eqb_refl.
    destruct (nth_error (children e) i) as [c|]; [|discriminate].
    cbn [option_map]. apply IH.
Qed.

(** Setting the text of a node leaves the text and the tag of every other
    node as they were. *)
Lemma get_update_set_text_other (s : string) (p q : path) (e : Element) :
  p <> q ->
  option_map text (get q (update p (set_text s) e)) = option_map text (get q e)
  /\ option_map tag (get q (update p (set_text s) e)) = option_map tag (get q e).
Proof.
  revert q e. induction p as [|j p IH]; intros q e Hpq; cbn [update].
  - destruct q as [|i q]; [congruence|]. cbn [get set_text children]. now split.
  - destruct q as [|i q]; [now cbn|].
    cbn [get with_children children]. rewrite nth_error_list_update.
    destruct (j =? i) eqn:Hji; [|now split].
    apply Nat.eqb_eq in Hji. subst i.
    destruct (nth_error (children e) j) as [c|]; cbn [option_map]; [|now split].
    apply IH. congruence.
Qed.

(** *** Document order and structure *)

Lemma indexed_app {A B : Type} (f : nat -> A -> list B) (i : nat)
  (l1 l2 : list A) :
  indexed f i (l1 ++ l2)%list
  = (indexed f i l1 ++ indexed f (i + List.length l1) l2)%list.
Proof.
  revert i. induction l1 as [|x l1 IH]; intros i; cbn [indexed app List.length].
  - now rewrite Nat.add_0_r.
  - rewrite IH, <- app_assoc. now replace (S i + List.length l1)
      with (i + S (List.length l1)) by lia.
Qed.

Lemma In_indexed {A B : Type} (f : nat -> A -> list B) (i : nat) (l : list A)
  (y : B) :
  In y (indexed f i l) ->
  exists k x, nth_error l k = Some x /\ In y (f (i + k) x).
Proof.
  revert i. induction l as [|x l IH]; intros i; cbn [indexed]; [contradiction|].
  rewrite in_app_iff. intros [H|H].
  - exists 0, x. now rewrite Nat.add_0_r.
  - destruct (IH _ H) as (k & x' & Hk & Hy). exists (S k), x'.
    split; [exact Hk|]. now replace (i + S k) with (S i + k) by lia.
Qed.

Lemma indexed_iter_erase (cs : list Element) :
  Forall (fun c => iter (erase c) = map erased (iter c)) cs ->
  forall i,
    indexed (fun i c => map (under i) (iter c)) i (map erase cs)
    = map erased (indexed (fun i c => map (under i) (iter c)) i cs).
Proof.
  induction 1 as [|c cs Hc _ IHcs]; intros i; cbn [map indexed];
    [reflexivity|].
  rewrite map_app, IHcs, Hc, !map_map. reflexivity.
Qed.

Lemma iter_erase (e : Element) : iter (erase e) = map erased (iter e).
Proof.
  revert e. apply Element_induction. intros t a tx tl cs IH.
  cbn [erase iter map]. now rewrite (indexed_iter_erase cs IH).
Qed.

Lemma has_tag_erased (t : string) (pe : path * Element) :
  has_tag t (erased pe) = has_tag t pe.
Proof. unfold has_tag, erased. cbn [snd]. now rewrite tag_erase. Qed.

Lemma filter_has_tag_erased (t : string) (l : list (path * Element)) :
  filter (has_tag t) (map erased l) = map erased (filter (has_tag t) l).
Proof.
  induction l as [|pe l IH]; cbn [map filter]; [reflexivity|].
  rewrite has_tag_erased, IH. now destruct (has_tag t pe).
Qed.

Lemma select_descendant_erased (t : string) (ctx : list (path * Element)) :
  select_descendant t (map erased ctx) = map erased (select_descendant t ctx).
Proof.
  unfold select_descendant.
  induction ctx as [|pe ctx IH]; cbn [map flat_map]; [reflexivity|].
  rewrite map_app, IH. f_equal. unfold descendants. cbn [erased fst snd].
  rewrite iter_erase.
  replace (tl (map erased (iter (snd pe))))
    with (map erased (tl (iter (snd pe)))) by now destruct (iter (snd pe)).
  rewrite filter_has_tag_erased, !map_map. reflexivity.
Qed.

Lemma indexed_child_erase (t : string) (p : path) (cs : list Element) :
  forall i,
    indexed (fun i c => if (tag c =? t)%string then [((p ++ [i])%list, c)]
                        else []) i (map erase cs)
    = map erased
        (indexed (fun i c => if (tag c =? t)%string then [((p ++ [i])%list, c)]
                             else []) i cs).
Proof.
  induction cs as [|c cs IHcs]; intros i; cbn [map indexed]; [reflexivity|].
  rewrite map_app, IHcs, tag_erase. now destruct (tag c =? t)%string.
Qed.

Lemma select_child_erased (t : string) (ctx : list (path * Element)) :
  select_child t (map erased ctx) = map erased (select_child t ctx).
Proof.
  unfold select_child.
  induction ctx as [|pe ctx IH]; cbn [map flat_map]; [reflexivity|].
  rewrite map_app, IH. cbn [erased fst snd].
  now rewrite children_erase, indexed_child_erase.
Qed.

Lemma findall_erase (x : xpath) (e : Element) :
  findall x (erase e) = map erased (findall x e).
Proof.
  destruct x as [t steps]. unfold findall.
  change [([], erase e)] with (map erased [([], e)]).
  rewrite select_descendant_erased.
  generalize (select_descendant t [([], e)]).
  induction steps as [|s steps IH]; intros ctx; cbn [fold_left];
    [reflexivity|].
  now rewrite select_child_erased, IH.
Qed.

(** What [find] gives depends on the structure of the tree only. *)
Lemma find_erase (x : xpath) (e : Element) : find x (erase e) = find x e.
Proof.
  unfold find. rewrite findall_erase, map_map. reflexivity.
Qed.

Lemma find_same_structure (x : xpath) (e e' : Element) :
  erase e = erase e' -> find x e = find x e'.
Proof. intros H. now rewrite <- (find_erase x e), H, find_erase. Qed.

Lemma get_erase (p : path) (e : Element) :
  get p (erase e) = option_map erase (get p e).
Proof.
  revert e. induction p as [|i p IH]; intros e; cbn [get]; [reflexivity|].
  rewrite children_erase, nth_error_map.
  destruct (nth_error (children e) i) as [c|]; cbn [option_map];
    [apply IH | reflexivity].
Qed.

(** *** The nodes that [find] gives *)

Lemma iter_sound (e : Element) :
  forall p d, In (p, d) (iter e) -> get p e = Some d.
Proof.
  induction e as [t a tx tl cs IH] using Element_induction. intros p d.
  cbn [iter In]. intros [H|H]; [now inversion H|].
  apply In_indexed in H. destruct H as (k & c & Hk & H).
  apply in_map_iff in H. destruct H as ([p' d'] & Heq & Hin).
  unfold under in Heq. cbn [fst snd] in Heq. inversion Heq; subst.
  cbn [get children]. rewrite Hk.
  rewrite Forall_forall in IH. apply (IH c); [|exact Hin].
  now apply nth_error_In with k.
Qed.

Lemma last_cons (s t : string) (steps : list string) :
  last (s :: steps) t = last steps s.
Proof.
  revert s t. induction steps as [|s' steps IH]; intros s t; [reflexivity|].
  change (last (s :: s' :: steps) t) with (last (s' :: steps) t).
  now rewrite !IH.
Qed.

Lemma select_child_sound (e : Element) (s : string)
  (ctx : list (path * Element)) :
  (forall p d, In (p, d) ctx -> get p e = Some d) ->
  forall p d, In (p, d) (select_child s ctx) ->
              get p e = Some d /\ tag d = s.
Proof.
  intros Hctx p d H. unfold select_child in H. apply in_flat_map in H.
  destruct H as ([p0 d0] & Hin0 & H). cbn [fst snd] in H.
  apply In_indexed in H. destruct H as (k & c & Hk & H).
  destruct (tag c =? s)%string eqn:Htag; [|contradiction].
  destruct H as [H|[]]. inversion H; subst.
  split; [|now apply String.eqb_eq].
  rewrite get_app, (Hctx _ _ Hin0). cbn [get]. now rewrite Hk.
Qed.

Lemma findall_sound (x : xpath) (e : Element) :
  forall p d, In (p, d) (findall x e) ->
              get p e = Some d /\ tag d = final_tag x.
Proof.
  destruct x as [t steps]. unfold findall, final_tag.
  assert (H0 : forall p d, In (p, d) (select_descendant t [([], e)]) ->
                           get p e = Some d /\ tag d = t).
  { intros p d H. unfold select_descendant in H. cbn [flat_map fst snd] in H.
    rewrite app_nil_r in H. apply in_map_iff in H.
    destruct H as ([q d'] & Heq & Hin). unfold below in Heq.
    cbn [fst snd app] in Heq. inversion Heq; subst.
    apply filter_In in Hin. destruct Hin as [Hin Htag].
    split; [|now apply String.eqb_eq].
    apply iter_sound. unfold descendants in Hin.
    destruct (iter e); [contradiction | now right]. }
  revert H0. generalize (select_descendant t [([], e)]). revert t.
  induction steps as [|s steps IH]; intros t ctx Hctx; cbn [fold_left];
    [exact Hctx|].
  intros p d H. rewrite last_cons.
  apply (IH s (select_child s ctx)); [|exact H].
  apply select_child_sound. intros p' d' H'. now apply Hctx.
Qed.

(** The node that [find] gives is in the tree and has the tag that the path
    ends with. *)
Lemma find_sound (x : xpath) (e : Element) (p : path) :
  find x e = Some p -> exists d, get p e = Some d /\ tag d = final_tag x.
Proof.
  unfold find. destruct (findall x e) as [|[p' d] l] eqn:Hall; [discriminate|].
  cbn [map head fst]. intros [= <-]. exists d.
  apply findall_sound. rewrite Hall. now left.
Qed.

(** *** Lookup and assignment *)

Lemma stamp_inv (x : xpath) (v : string) (e e' : Element) :
  stamp x v e = Ok e' ->
  exists p, find x e = Some p /\ e' = update p (set_text v) e.
Proof.
  unfold stamp. destruct (find x e) as [p|]; [|discriminate].
  intros [= <-]. now exists p.
Qed.

Lemma stamp_erase (x : xpath) (v : string) (e e' : Element) :
  stamp x v e = Ok e' -> erase e' = erase e.
Proof.
  intros H. destruct (stamp_inv _ _ _ _ H) as (p & _ & ->).
  apply erase_update, erase_set_text.
Qed.

(** After [node = root.find(x); node.text = v], the field [x] reads [v]. *)
Lemma field_stamp_same (x : xpath) (v : string) (e e' : Element) :
  stamp x v e = Ok e' -> field x e' = Some v.
Proof.
  intros H. pose proof (stamp_erase _ _ _ _ H) as He.
  destruct (stamp_inv _ _ _ _ H) as (p & Hp & ->).
  unfold field. rewrite (find_same_structure x _ e He), Hp.
  destruct (find_sound _ _ _ Hp) as (d & Hd & _).
  now rewrite (get_update_same p _ e d Hd).
Qed.

(** A field whose path ends with another tag keeps its text. *)
Lemma field_stamp_other (x y : xpath) (v : string) (e e' : Element) :
  stamp x v e = Ok e' -> final_tag x <> final_tag y -> field y e' = field y e.
Proof.
  intros H Hxy. pose proof (stamp_erase _ _ _ _ H) as He.
  destruct (stamp_inv _ _ _ _ H) as (p & Hp & ->).
  unfold field. rewrite (find_same_structure y _ e He).
  destruct (find y e) as [q|] eqn:Hq; [|reflexivity].
  destruct (find_sound _ _ _ Hp) as (d & Hd & Htd).
  destruct (find_sound _ _ _ Hq) as (d' & Hd' & Htd').
  assert (Hpq : p <> q) by (intros ->; congruence).
  destruct (get_update_set_text_other v p q e Hpq) as [Htext _].
  rewrite Hd' in *. cbn [option_map] in Htext.
  destruct (get q (update p (set_text v) e)); cbn [option_map] in Htext;
    congruence.
Qed.

(** *** The first match in document order *)

Lemma iter_cons (e : Element) : iter e = ([], e) :: descendants e.
Proof. now destruct e. Qed.

Lemma descendants_indexed (e : Element) :
  descendants e = indexed (fun i c => map (under i) (iter c)) 0 (children e).
Proof. now destruct e. Qed.

Lemma find_desc_first_in (t : string) (e : Element) :
  find (Descendant t []) e = first_in t (descendants e).
Proof.
  unfold find, findall, select_descendant, first_in.
  cbn [fold_left flat_map fst snd]. rewrite app_nil_r, map_map.
  reflexivity.
Qed.

Lemma first_in_app (t : string) (l1 l2 : list (path * Element)) :
  first_in t (l1 ++ l2)%list
  = match first_in t l1 with
    | Some p => Some p
    | None => first_in t l2
    end.
Proof.
  unfold first_in. rewrite filter_app, map_app.
  now destruct (map fst (filter (has_tag t) l1)).
Qed.

Lemma first_in_under (t : string) (i : nat) (l : list (path * Element)) :
  first_in t (map (under i) l) = option_map (cons i) (first_in t l).
Proof.
  unfold first_in. induction l as [|pe l IH]; cbn [map filter]; [reflexivity|].
  change (has_tag t (under i pe)) with (has_tag t pe).
  destruct (has_tag t pe); [reflexivity | exact IH].
Qed.

Lemma first_in_iter (t : string) (c : Element) :
  first_in t (iter c)
  = if (tag c =? t)%string then Some [] else first_in t (descendants c).
Proof.
  rewrite iter_cons. unfold first_in. cbn [filter]. unfold has_tag at 1.
  cbn [snd]. now destruct (tag c =? t)%string.
Qed.

(** The first match among the children from position [j] on: in the first
    child, or else among the children behind it. *)
Lemma first_in_indexed_cons (t : string) (j : nat) (c : Element)
  (cs : list Element) :
  first_in t (indexed (fun i c => map (under i) (iter c)) j (c :: cs))
  = match first_in t (iter c) with
    | Some q => Some (j :: q)
    | None => first_in t (indexed (fun i c => map (under i) (iter c)) (S j) cs)
    end.
Proof.
  cbn [indexed]. rewrite first_in_app, first_in_under.
  now destruct (first_in t (iter c)).
Qed.

Lemma first_in_indexed_ge (t : string) (cs : list Element) :
  forall j p,
    first_in t (indexed (fun i c => map (under i) (iter c)) j cs) = Some p ->
    exists i q, p = i :: q /\ j <= i.
Proof.
  induction cs as [|c cs IH]; intros j p; [discriminate|].
  rewrite first_in_indexed_cons. destruct (first_in t (iter c)) as [q|].
  - intros [= <-]. now exists j, q.
  - intros H. destruct (IH _ _ H) as (i & q & -> & Hi). exists i, q.
    split; [reflexivity | lia].
Qed.

(** The first match is kept when the children behind it change. *)
Lemma first_in_indexed_firstn (t : string) (k : nat) :
  forall cs cs' j i q,
    firstn k cs = firstn k cs' ->
    first_in t (indexed (fun i c => map (under i) (iter c)) j cs)
    = Some (i :: q) ->
    i < j + k ->
    first_in t (indexed (fun i c => map (under i) (iter c)) j cs')
    = Some (i :: q).
Proof.
  induction k as [|k IH]; intros cs cs' j i q Hfirst H Hi.
  - destruct (first_in_indexed_ge _ _ _ _ H) as (i' & q' & [= -> ->] & Hj). lia.
  - destruct cs as [|c cs]; [discriminate|].
    destruct cs' as [|c' cs']; [discriminate|].
    cbn [firstn] in Hfirst. injection Hfirst as <- Hfirst.
    rewrite first_in_indexed_cons in *.
    destruct (first_in t (iter c)); [exact H|].
    apply (IH cs cs' (S j) i q Hfirst H). lia.
Qed.

(** The first match is kept when the child that holds it changes and the
    first match in that child stays. *)
Lemma first_in_indexed_update (t : string) (g : Element -> Element) :
  forall cs j n c q,
    nth_error cs n = Some c ->
    first_in t (indexed (fun i c => map (under i) (iter c)) j cs)
    = Some ((j + n) :: q) ->
    (first_in t (iter c) = Some q -> first_in t (iter (g c)) = Some q) ->
    first_in t (indexed (fun i c => map (under i) (iter c)) j
                        (list_update n g cs))
    = Some ((j + n) :: q).
Proof.
  induction cs as [|x cs IH]; intros j n c q Hn H Hg;
    [destruct n; discriminate|].
  destruct n as [|n]; cbn [nth_error list_update] in *.
  - injection Hn as ->. rewrite first_in_indexed_cons in *.
    rewrite Nat.add_0_r in *.
    destruct (first_in t (iter c)) as [q'|] eqn:Hc.
    + injection H as ->. now rewrite (Hg eq_refl).
    + destruct (first_in_indexed_ge _ _ _ _ H) as (i' & q' & [= -> ->] & Hj).
      lia.
  - rewrite first_in_indexed_cons in *.
    destruct (first_in t (iter x)) as [q'|]; [injection H as H _; lia|].
    replace (j + S n) with (S j + n) in * by lia.
    now apply (IH (S j) n c q).
Qed.

Lemma precedes_nil_r (p : path) : precedes p [] = false.
Proof. now destruct p. Qed.

Lemma firstn_list_update {A : Type} (f : A -> A) (i : nat) (l : list A) :
  firstn i (list_update i f l) = firstn i l.
Proof.
  revert i. induction l as [|x l IH]; intros [|i]; cbn; try reflexivity.
  now rewrite IH.
Qed.

Lemma list_update_none {A : Type} (f : A -> A) (i : nat) (l : list A) :
  nth_error l i = None -> list_update i f l = l.
Proof.
  revert i. induction l as [|x l IH]; intros [|i]; cbn; try reflexivity;
    [discriminate|].
  intros H. now rewrite IH.
Qed.

Lemma nth_error_firstn_eq {A : Type} (k i : nat) (l l' : list A) :
  firstn k l = firstn k l' -> i < k -> nth_error l i = nth_error l' i.
Proof.
  revert i l l'. induction k as [|k IH]; intros i l l' H Hi; [lia|].
  destruct l as [|x l], l' as [|x' l']; try discriminate; [reflexivity|].
  cbn [firstn] in H. injection H as <- H.
  destruct i as [|i]; [reflexivity|]. cbn [nth_error]. apply (IH i l l' H). lia.
Qed.

Lemma tag_update_edit (h : list Element -> list Element) (pp : path)
  (e : Element) :
  tag (update pp (edit_children h) e) = tag e.
Proof. destruct pp; reflexivity. Qed.

Section Edit.

Variable t : string.
Variable h : list Element -> list Element.
Variable k : nat.

(** A change of the children of the node at [pp] from position [k] on keeps
    the first match of [.//t] when that match comes before the child at
    position [k] in document order. *)
Lemma first_in_edit (pp : path) :
  forall e p,
    first_in t (descendants e) = Some p ->
    precedes p (pp ++ [k])%list = true ->
    (forall par, get pp e = Some par ->
                 firstn k (h (children par)) = firstn k (children par)) ->
    first_in t (descendants (update pp (edit_children h) e)) = Some p.
Proof.
  induction pp as [|j pp IH]; intros e p Hp Hprec Hh.
  - cbn [update]. unfold edit_children. rewrite descendants_indexed in *.
    cbn [with_children children].
    destruct (first_in_indexed_ge _ _ _ _ Hp) as (i & q & -> & _).
    cbn [app precedes] in Hprec. rewrite precedes_nil_r, andb_false_r,
      orb_false_r in Hprec. apply Nat.ltb_lt in Hprec.
    apply (first_in_indexed_firstn t k (children e)); [|exact Hp | lia].
    symmetry. now apply Hh.
  - cbn [update]. rewrite descendants_indexed in *.
    cbn [with_children children].
    destruct (first_in_indexed_ge _ _ _ _ Hp) as (i & q & -> & _).
    cbn [app precedes] in Hprec. apply orb_true_iff in Hprec.
    destruct Hprec as [Hij|Hij].
    + apply Nat.ltb_lt in Hij.
      apply (first_in_indexed_firstn t j (children e)); [|exact Hp | lia].
      symmetry. apply firstn_list_update.
    + apply andb_true_iff in Hij. destruct Hij as [Hij Hprec].
      apply Nat.eqb_eq in Hij. subst i.
      destruct (nth_error (children e) j) as [c|] eqn:Hc;
        [|now rewrite list_update_none].
      apply (first_in_indexed_update t _ (children e) 0 j c q Hc Hp).
      rewrite !first_in_iter, tag_update_edit.
      destruct (tag c =? t)%string; [trivial|].
      intros Hq. apply (IH c q Hq Hprec).
      intros par Hpar. apply Hh. cbn [get]. now rewrite Hc.
Qed.

(** Such a change keeps the text of every node that comes before the child
    at position [k]. *)
Lemma text_at_edit (pp : path) :
  forall e p,
    precedes p (pp ++ [k])%list = true ->
    (forall par, get pp e = Some par ->
                 firstn k (h (children par)) = firstn k (children par)) ->
    text_at p (update pp (edit_children h) e) = text_at p e.
Proof.
  unfold text_at.
  induction pp as [|j pp IH]; intros e p Hprec Hh.
  - cbn [update]. unfold edit_children. destruct p as [|i p]; [reflexivity|].
    cbn [app precedes] in Hprec. rewrite precedes_nil_r, andb_false_r,
      orb_false_r in Hprec. apply Nat.ltb_lt in Hprec.
    cbn [get with_children children].
    now rewrite (nth_error_firstn_eq k i _ (children e) (Hh e eq_refl) Hprec).
  - cbn [update]. destruct p as [|i p]; [reflexivity|].
    cbn [get with_children children]. rewrite nth_error_list_update.
    cbn [app precedes] in Hprec. apply orb_true_iff in Hprec.
    destruct Hprec as [Hij|Hij].
    + apply Nat.ltb_lt in Hij.
      now replace (j =? i) with false by (symmetry; apply Nat.eqb_neq; lia).
    + apply andb_true_iff in Hij. destruct Hij as [Hij Hprec].
      apply Nat.eqb_eq in Hij. subst i. rewrite Nat.eqb_refl.
      destruct (nth_error (children e) j) as [c|] eqn:Hc; [|reflexivity].
      cbn [option_map]. apply (IH c p Hprec).
      intros par Hpar. apply Hh. cbn [get]. now rewrite Hc.
Qed.

End Edit.

(** *** Changes of one node *)

Lemma list_update_ext {A : Type} (f g : A -> A) (i : nat) (l : list A) :
  (forall x, f x = g x) -> list_update i f l = list_update i g l.
Proof.
  intros H. revert i. induction l as [|x l IH]; intros [|i]; cbn;
    try reflexivity; [now rewrite H | now rewrite IH].
Qed.

Lemma list_update_twice {A : Type} (f g : A -> A) (i : nat) (l : list A) :
  list_update i g (list_update i f l) = list_update i (fun x => g (f x)) l.
Proof.
  revert i. induction l as [|x l IH]; intros [|i]; cbn; try reflexivity.
  now rewrite IH.
Qed.

Lemma update_ext (p : path) (f g : Element -> Element) (e : Element) :
  (forall x, f x = g x) -> update p f e = update p g e.
Proof.
  intros H. revert e. induction p as [|i p IH]; intros e; cbn [update];
    [apply H|].
  f_equal. now apply list_update_ext.
Qed.

Lemma update_twice (p : path) (f g : Element -> Element) (e : Element) :
  update p g (update p f e) = update p (fun x => g (f x)) e.
Proof.
  revert e. induction p as [|i p IH]; intros e; cbn [update]; [reflexivity|].
  destruct e as [t a tx tl cs]. unfold with_children.
  cbn [children tag attrib text tail].
  f_equal. rewrite list_update_twice. now apply list_update_ext.
Qed.

Lemma list_update_id {A : Type} (f : A -> A) (i : nat) (l : list A) :
  (forall x, f x = x) -> list_update i f l = l.
Proof.
  intros H. revert i. induction l as [|x l IH]; intros [|i]; cbn;
    try reflexivity; [now rewrite H | now rewrite IH].
Qed.

Lemma update_id (p : path) (f : Element -> Element) (e : Element) :
  (forall x, f x = x) -> update p f e = e.
Proof.
  intros H. revert e. induction p as [|i p IH]; intros e; cbn [update];
    [apply H|].
  rewrite (list_update_id _ i _ IH). apply with_children_same.
Qed.

Lemma child_index_spec (pp q : path) (k : nat) :
  child_index pp q = Some k -> q = (pp ++ [k])%list.
Proof.
  revert q. induction pp as [|i pp IH]; intros q; cbn [child_index].
  - destruct q as [|j [|? ?]]; try discriminate. now intros [= ->].
  - destruct q as [|j q]; [discriminate|].
    destruct (i =? j) eqn:Hij; [|discriminate].
    apply Nat.eqb_eq in Hij. subst j. intros H. cbn. now rewrite (IH q H).
Qed.

Lemma child_index_complete (pp : path) (k : nat) :
  child_index pp (pp ++ [k])%list = Some k.
Proof.
  induction pp as [|i pp IH]; cbn; [reflexivity|]. now rewrite Nat.eqb_refl.
Qed.

Lemma precedes_prefix (pp : path) (k : nat) :
  precedes pp (pp ++ [k])%list = true.
Proof.
  induction pp as [|i pp IH]; cbn; [reflexivity|].
  now rewrite Nat.eqb_refl, IH, orb_true_r.
Qed.

(** Setting the text of a node leaves every node that is not above it as it
    was. *)
Lemma get_update_set_text_outside (s : string) (p q : path) (e : Element) :
  is_prefix q p = false ->
  get q (update p (set_text s) e) = get q e.
Proof.
  revert q e. induction p as [|j p IH]; intros q e Hq.
  - destruct q as [|i q]; [discriminate | reflexivity].
  - destruct q as [|i q]; [discriminate|]. cbn [is_prefix] in Hq.
    cbn [update get with_children children]. rewrite nth_error_list_update.
    destruct (j =? i) eqn:Hji; [|reflexivity].
    apply Nat.eqb_eq in Hji. subst i. rewrite Nat.eqb_refl in Hq.
    destruct (nth_error (children e) j) as [c|]; [|reflexivity].
    cbn [option_map]. now apply IH.
Qed.

Lemma field_text_at (x : xpath) (e e' : Element) :
  find x e' = find x e ->
  (forall p, find x e = Some p -> text_at p e' = text_at p e) ->
  field x e' = field x e.
Proof.
  intros Hfind Htext. unfold field. rewrite Hfind.
  destruct (find x e) as [p|]; [|reflexivity].
  specialize (Htext p eq_refl). unfold text_at in Htext.
  destruct (get p e'), (get p e); cbn [option_map] in Htext; congruence.
Qed.

End Trees.

(** ** The record reader *)

Section Reader.

Lemma transaction_of_row_ok (row : list string) :
  5 <= List.length row ->
  transaction_of_row row
  = Ok (mkTransaction (nth 0 row "") (nth 1 row "") (nth 2 row "")
                      (nth 4 row "")).
Proof.
  destruct row as [|a [|b [|c [|d [|e rest]]]]]; cbn [List.length];
    try lia.
  reflexivity.
Qed.

Lemma transaction_of_row_short (row : list string) :
  List.length row < 5 -> transaction_of_row row = Err IndexError.
Proof.
  destruct row as [|a [|b [|c [|d [|e rest]]]]]; cbn [List.length];
    try lia; reflexivity.
Qed.

Lemma get_credit_transactions_ok (rows : list (list string)) :
  Forall (fun row => 5 <= List.length row) rows ->
  get_credit_transactions rows
  = Ok (map (fun row => mkTransaction (nth 0 row "") (nth 1 row "")
                                      (nth 2 row "") (nth 4 row "")) rows).
Proof.
  induction 1 as [|row rows Hrow _ IH]; cbn [get_credit_transactions map];
    [reflexivity|].
  rewrite (transaction_of_row_ok row Hrow). cbn [bind]. now rewrite IH.
Qed.

Lemma get_credit_transactions_short (rows : list (list string)) :
  Exists (fun row => List.length row < 5) rows ->
  get_credit_transactions rows = Err IndexError.
Proof.
  induction rows as [|row rows IH]; intros H; [inversion H|].
  cbn [get_credit_transactions].
  destruct (Nat.lt_ge_cases (List.length row) 5) as [Hshort|Hlong].
  - now rewrite (transaction_of_row_short row Hshort).
  - rewrite (transaction_of_row_ok row Hlong). cbn [bind].
    inversion H as [? ? Hrow|? ? Hrest]; subst; [lia|].
    now rewrite (IH Hrest).
Qed.

(** The reader succeeds on rows of at least five fields only. *)
Lemma get_credit_transactions_inv (rows : list (list string))
  (txs : list Transaction) :
  get_credit_transactions rows = Ok txs ->
  Forall (fun row => 5 <= List.length row) rows.
Proof.
  intros H. apply Forall_forall. intros row Hin.
  destruct (Nat.lt_ge_cases (List.length row) 5) as [Hshort|Hlong];
    [|exact Hlong].
  rewrite get_credit_transactions_short in H; [discriminate|].
  apply Exists_exists. now exists row.
Qed.

End Reader.

(** C6. The reader gives one transaction for each row, in the order of the
    rows; the amount is field 0 of the row, the account field 1, the
    creditor name field 2 and the description field 4, each as the text it
    is; field 3 has no part in the result. *)
Theorem get_credit_transactions_positional (rows : list (list string)) :
  Forall (fun row => 5 <= List.length row) rows ->
  exists txs,
    get_credit_transactions rows = Ok txs /\
    List.length txs = List.length rows /\
    (forall i row,
        nth_error rows i = Some row ->
        exists tx,
          nth_error txs i = Some tx /\
          nth_error row 0 = Some (amount tx) /\
          nth_error row 1 = Some (iban tx) /\
          nth_error row 2 = Some (creditor_name tx) /\
          nth_error row 4 = Some (descr tx)) /\
    (forall a b c d d' e rest,
        transaction_of_row (a :: b :: c :: d :: e :: rest)
        = transaction_of_row (a :: b :: c :: d' :: e :: rest)).
Proof.
  intros Hrows. eexists. split; [apply get_credit_transactions_ok, Hrows|].
  split; [apply length_map|]. split; [|reflexivity].
  intros i row Hi. rewrite nth_error_map, Hi. cbn [option_map].
  eexists. split; [reflexivity|]. cbn [amount iban creditor_name descr].
  rewrite Forall_forall in Hrows.
  pose proof (Hrows row (nth_error_In _ _ Hi)) as Hlen.
  destruct row as [|a [|b [|c [|d [|e rest]]]]]; cbn [List.length] in Hlen;
    try lia.
  repeat split.
Qed.

(** ** The document builder *)

Ltac tags_differ := apply String.eqb_neq; vm_compute; reflexivity.

(** One lookup-and-assign step of a chain of them. *)
Ltac stamp_step H :=
  match type of H with
  | bind (stamp ?x ?v ?r) _ = Ok _ =>
      let r' := fresh "r" in
      let E := fresh "E" in
      destruct (stamp x v r) as [r'|] eqn:E; [cbn [bind] in H | discriminate H]
  end.

(** The structure after a chain of assignments is the structure before. *)
Ltac erase_chain :=
  repeat match goal with
         | E : stamp _ _ ?e = Ok ?e' |- context [erase ?e'] =>
             rewrite (stamp_erase _ _ _ _ E)
         end;
  reflexivity.

(** The text of a field after a chain of assignments: the one assigned to
    it, no later assignment having a path that ends with the same tag. *)
Ltac field_chain :=
  match goal with
  | E : stamp ?x ?v ?e = Ok ?e' |- field ?x ?e' = Some ?v =>
      exact (field_stamp_same x v e e' E)
  | E : stamp ?x ?v ?e = Ok ?e' |- field ?y ?e' = _ =>
      rewrite (field_stamp_other x y v e e' E) by tags_differ; field_chain
  end.

(** Membership in one of the lists of lookups. *)
Ltac in_lookups :=
  unfold document_lookups, header_lookups, block_lookups; cbn [In app];
  repeat first [left; reflexivity | right].

Section Builder.

Lemma stamp_present (x : xpath) (v : string) (e e' root : Element) :
  stamp x v e = Ok e' -> erase e = erase root -> present x root = true.
Proof.
  intros H He. destruct (stamp_inv _ _ _ _ H) as (p & Hp & _).
  unfold present. now rewrite <- (find_same_structure x e root He), Hp.
Qed.

Lemma stamp_absent (x : xpath) (v : string) (e root : Element) :
  present x root = false -> erase e = erase root ->
  stamp x v e = Err AttributeError.
Proof.
  unfold present, stamp. intros H He.
  rewrite (find_same_structure x e root He).
  now destruct (find x root).
Qed.

Lemma stamp_get_outside (x : xpath) (v : string) (e e' root : Element)
  (q : path) :
  stamp x v e = Ok e' -> erase e = erase root ->
  (forall p, find x root = Some p -> is_prefix q p = false) ->
  get q e' = get q e.
Proof.
  intros H He Hq. destruct (stamp_inv _ _ _ _ H) as (p & Hp & ->).
  apply get_update_set_text_outside, Hq.
  now rewrite <- (find_same_structure x e root He).
Qed.

Lemma stamp_text_other (x : xpath) (v : string) (e e' root : Element)
  (q : path) :
  stamp x v e = Ok e' -> erase e = erase root ->
  (forall p, find x root = Some p -> q <> p) ->
  text_at q e' = text_at q e.
Proof.
  intros H He Hq. destruct (stamp_inv _ _ _ _ H) as (p & Hp & ->).
  apply get_update_set_text_other. intros <-.
  apply (Hq p); [|reflexivity].
  now rewrite <- (find_same_structure x e root He).
Qed.

(** *** The header *)

Lemma stamp_header_inv (args : Args) (now : datetime) (rnd : nat -> nat)
  (n : nat) (root root1 : Element) (id : string) :
  stamp_header args now rnd n root = Ok (root1, id) ->
  id = createMsgId now rnd (id_prefix args) ++ "-1" /\
  erase root1 = erase root /\
  Forall (fun x => present x root = true) header_lookups /\
  field (desc "MsgId") root1 = Some (createMsgId now rnd (id_prefix args)) /\
  field (desc "CreDtTm") root1 = Some (Py.split_head "." (isoformat now)) /\
  field (desc "NbOfTxs") root1 = Some (Py.str n) /\
  field (desc "PmtInfId") root1 = Some id /\
  field (desc "ReqdExctnDt") root1 = Some (date_isoformat now) /\
  (forall q,
      (forall x p, In x header_lookups -> find x root = Some p ->
                   is_prefix q p = false) ->
      get q root1 = get q root).
Proof.
  unfold stamp_header. intros H. do 9 stamp_step H.
  injection H as <- <-.
  assert (H0 : erase r = erase root) by erase_chain.
  assert (H1 : erase r0 = erase root) by erase_chain.
  assert (H2 : erase r1 = erase root) by erase_chain.
  assert (H3 : erase r2 = erase root) by erase_chain.
  assert (H4 : erase r3 = erase root) by erase_chain.
  assert (H5 : erase r4 = erase root) by erase_chain.
  assert (H6 : erase r5 = erase root) by erase_chain.
  assert (H7 : erase r6 = erase root) by erase_chain.
  assert (H8 : erase r7 = erase root) by erase_chain.
  split; [reflexivity|]. split; [exact H8|].
  split.
  { repeat constructor;
      match goal with
      | E : stamp ?x _ ?e = Ok _ |- present ?x _ = true =>
          apply (stamp_present _ _ _ _ root E); first [reflexivity | assumption]
      end. }
  repeat (split; [field_chain|]).
  intros q Hq.
  rewrite (stamp_get_outside _ _ _ _ root q E7 H7)
    by (intros p Hp; refine (Hq _ p _ Hp); in_lookups).
  rewrite (stamp_get_outside _ _ _ _ root q E6 H6)
    by (intros p Hp; refine (Hq _ p _ Hp); in_lookups).
  rewrite (stamp_get_outside _ _ _ _ root q E5 H5)
    by (intros p Hp; refine (Hq _ p _ Hp); in_lookups).
  rewrite (stamp_get_outside _ _ _ _ root q E4 H4)
    by (intros p Hp; refine (Hq _ p _ Hp); in_lookups).
  rewrite (stamp_get_outside _ _ _ _ root q E3 H3)
    by (intros p Hp; refine (Hq _ p _ Hp); in_lookups).
  rewrite (stamp_get_outside _ _ _ _ root q E2 H2)
    by (intros p Hp; refine (Hq _ p _ Hp); in_lookups).
  rewrite (stamp_get_outside _ _ _ _ root q E1 H1)
    by (intros p Hp; refine (Hq _ p _ Hp); in_lookups).
  rewrite (stamp_get_outside _ _ _ _ root q E0 H0)
    by (intros p Hp; refine (Hq _ p _ Hp); in_lookups).
  apply (stamp_get_outside _ _ _ _ root q E eq_refl).
  intros p Hp; refine (Hq _ p _ Hp); in_lookups.
Qed.

(** *** The transaction blocks *)

Lemma digit_not_sign (c : ascii) : is_digit c = true -> Py.is_sign c = false.
Proof.
  unfold Py.is_sign. intros H.
  destruct (Ascii.eqb_spec c "+") as [->|_]; [discriminate H|].
  destruct (Ascii.eqb_spec c "-") as [->|_]; [discriminate H | reflexivity].
Qed.

(** [str(index).zfill(4)] is the index padded with zeros on the left: the
    digits of a number do not begin with a sign. *)
Lemma zfill_str (w n : nat) : Py.zfill w (Py.str n) = Spec.left_pad_zero w (Py.str n).
Proof.
  unfold Py.zfill, Spec.left_pad_zero.
  destruct (w <=? String.length (Py.str n)) eqn:Hw.
  - apply Nat.leb_le in Hw.
    now replace (w - String.length (Py.str n)) with 0 by lia.
  - pose proof (str_all_digits n) as Hd.
    destruct (Py.str n) as [|c rest]; [now rewrite append_nil_r|].
    cbn [all_chars] in Hd. apply andb_true_iff in Hd. destruct Hd as [Hc _].
    now rewrite (digit_not_sign c Hc).
Qed.

Lemma fill_block_inv (id : string) (block : Element) (i : nat)
  (tx : Transaction) (b : Element) :
  fill_block id block i tx = Ok b ->
  erase b = erase block /\
  Forall (fun x => present x block = true) block_lookups /\
  field (desc "EndToEndId") b
  = Some (id ++ "-" ++ Spec.left_pad_zero 4 (Py.str i)) /\
  field (desc "InstdAmt") b = Some (amount tx) /\
  field (desc_path "Cdtr" ["Nm"]) b = Some (creditor_name tx) /\
  field (desc_path "CdtrAcct" ["Id"; "IBAN"]) b = Some (iban tx) /\
  field (desc "Ustrd") b = Some (descr tx) /\
  (forall q,
      (forall x p, In x block_lookups -> find x block = Some p -> q <> p) ->
      text_at q b = text_at q block).
Proof.
  unfold fill_block. rewrite deepcopy_id, zfill_str. intros H.
  do 5 stamp_step H. injection H as <-.
  assert (H0 : erase r = erase block) by erase_chain.
  assert (H1 : erase r0 = erase block) by erase_chain.
  assert (H2 : erase r1 = erase block) by erase_chain.
  assert (H3 : erase r2 = erase block) by erase_chain.
  assert (H4 : erase r3 = erase block) by erase_chain.
  split; [exact H4|].
  split.
  { repeat constructor;
      match goal with
      | E : stamp ?x _ ?e = Ok _ |- present ?x _ = true =>
          apply (stamp_present _ _ _ _ block E); first [reflexivity | assumption]
      end. }
  repeat (split; [field_chain|]).
  intros q Hq.
  rewrite (stamp_text_other _ _ _ _ block q E3 H3)
    by (intros p Hp; refine (Hq _ p _ Hp); in_lookups).
  rewrite (stamp_text_other _ _ _ _ block q E2 H2)
    by (intros p Hp; refine (Hq _ p _ Hp); in_lookups).
  rewrite (stamp_text_other _ _ _ _ block q E1 H1)
    by (intros p Hp; refine (Hq _ p _ Hp); in_lookups).
  rewrite (stamp_text_other _ _ _ _ block q E0 H0)
    by (intros p Hp; refine (Hq _ p _ Hp); in_lookups).
  apply (stamp_text_other _ _ _ _ block q E eq_refl).
  intros p Hp; refine (Hq _ p _ Hp); in_lookups.
Qed.

(** A lookup that finds nothing in the block makes the copy fail. *)
Lemma fill_block_absent (id : string) (block : Element) (i : nat)
  (tx : Transaction) :
  Exists (fun x => present x block = false) block_lookups ->
  fill_block id block i tx = Err AttributeError.
Proof.
  intros Hex. destruct (fill_block id block i tx) as [b|e] eqn:H.
  - destruct (fill_block_inv _ _ _ _ _ H) as (_ & Hall & _).
    apply Exists_exists in Hex. destruct Hex as (x & Hx & Habs).
    rewrite Forall_forall in Hall. rewrite (Hall x Hx) in Habs. discriminate.
  - f_equal. revert H. unfold fill_block, stamp.
    repeat match goal with
           | |- context [find ?x ?e] => destruct (find x e); cbn [bind]
           end; congruence.
Qed.

Lemma edit_children_append (b : Element) (bs : list Element) (x : Element) :
  edit_children (fun cs => cs ++ bs)%list (append_child b x)
  = edit_children (fun cs => cs ++ b :: bs)%list x.
Proof.
  destruct x as [t a tx tl cs]. unfold edit_children, append_child, with_children.
  cbn [children tag attrib text tail]. now rewrite <- app_assoc.
Qed.

(** The loop appends, in the order of the transactions, one filled copy of
    the block for each of them. *)
Lemma add_transactions_inv (id : string) (block : Element) (pp : path) :
  forall txs i root out,
    add_transactions id block pp i txs root = Ok out ->
    exists blocks,
      List.length blocks = List.length txs /\
      (forall n tx, nth_error txs n = Some tx ->
                    exists b, nth_error blocks n = Some b /\
                              fill_block id block (i + n) tx = Ok b) /\
      out = update pp (edit_children (fun cs => cs ++ blocks)%list) root.
Proof.
  induction txs as [|tx txs IH]; intros i root out; cbn [add_transactions].
  - intros [= <-]. exists []. split; [reflexivity|]. split.
    + intros [|n] tx; discriminate.
    + symmetry. apply update_id. intros x. unfold edit_children.
      rewrite app_nil_r. apply with_children_same.
  - destruct (fill_block id block i tx) as [b|] eqn:Hb; [|discriminate].
    cbn [bind]. intros H. destruct (IH _ _ _ H) as (bs & Hlen & Hnth & ->).
    exists (b :: bs). split; [cbn; now rewrite Hlen|]. split.
    + intros [|n] tx'; cbn [nth_error].
      * intros [= <-]. exists b. now rewrite Nat.add_0_r.
      * intros Hn. destruct (Hnth n tx' Hn) as (b' & Hb' & Hfill).
        exists b'. split; [exact Hb'|].
        now replace (i + S n) with (S i + n) by lia.
    + rewrite update_twice. apply update_ext, edit_children_append.
Qed.

(** The loop stops at the first copy that fails. *)
Lemma add_transactions_absent (id : string) (block : Element) (pp : path)
  (i : nat) (tx : Transaction) (txs : list Transaction) (root : Element) :
  Exists (fun x => present x block = false) block_lookups ->
  add_transactions id block pp i (tx :: txs) root = Err AttributeError.
Proof.
  intros H. cbn [add_transactions]. now rewrite (fill_block_absent _ _ _ _ H).
Qed.

Lemma detach_block_inv (root root2 : Element) (pp : path) (block : Element) :
  detach_block root = Ok (root2, pp, block) ->
  exists k,
    find (desc "PmtInf") root = Some pp /\
    find (desc "CdtTrfTxInf") root = Some (pp ++ [k])%list /\
    get (pp ++ [k])%list root = Some block /\
    root2 = update pp (remove_child k) root.
Proof.
  unfold detach_block.
  destruct (find (desc "PmtInf") root) as [pp'|]; [|discriminate].
  destruct (find (desc "CdtTrfTxInf") root) as [q|]; [|discriminate].
  destruct (child_index pp' q) as [k|] eqn:Hk; [|discriminate].
  destruct (get q root) as [blk|] eqn:Hq; [|discriminate].
  intros [= <- <- <-]. exists k.
  apply child_index_spec in Hk. subst q. auto.
Qed.

Lemma edit_children_remove (k : nat) (bs : list Element) (x : Element) :
  edit_children (fun cs => cs ++ bs)%list (remove_child k x)
  = edit_children (fun cs => remove_nth k cs ++ bs)%list x.
Proof. now destruct x. Qed.

(** What a run that succeeds has done. *)
Lemma process_xml_inv (args : Args) (now : datetime) (rnd : nat -> nat)
  (rows : list (list string)) (template out : Element) :
  process_xml args now rnd rows template = Ok out ->
  exists txs root1 pp k block blocks,
    get_credit_transactions rows = Ok txs /\
    stamp_header args now rnd (List.length txs) template
    = Ok (root1, createMsgId now rnd (id_prefix args) ++ "-1") /\
    find (desc "PmtInf") root1 = Some pp /\
    find (desc "CdtTrfTxInf") root1 = Some (pp ++ [k])%list /\
    get (pp ++ [k])%list root1 = Some block /\
    List.length blocks = List.length txs /\
    (forall n tx, nth_error txs n = Some tx ->
                  exists b, nth_error blocks n = Some b /\
                            fill_block
                              (createMsgId now rnd (id_prefix args) ++ "-1")
                              block n tx = Ok b) /\
    out = update pp (edit_children (fun cs => remove_nth k cs ++ blocks)%list)
                 root1.
Proof.
  unfold process_xml.
  destruct (get_credit_transactions rows) as [txs|] eqn:Htxs; [|discriminate].
  cbn [bind].
  destruct (stamp_header args now rnd (List.length txs) template)
    as [[root1 id]|] eqn:Hhdr; [|discriminate].
  cbn [bind].
  destruct (detach_block root1) as [[[root2 pp] block]|] eqn:Hdet;
    [|discriminate].
  cbn [bind]. intros H.
  destruct (stamp_header_inv _ _ _ _ _ _ _ Hhdr) as (Hid & _).
  destruct (detach_block_inv _ _ _ _ Hdet) as (k & Hpp & Hq & Hblock & ->).
  destruct (add_transactions_inv _ _ _ _ _ _ _ H) as (blocks & Hlen & Hnth & ->).
  subst id. exists txs, root1, pp, k, block, blocks.
  split; [reflexivity|]. split; [exact Hhdr|].
  split; [exact Hpp|]. split; [exact Hq|]. split; [exact Hblock|].
  split; [exact Hlen|]. split; [exact Hnth|].
  rewrite update_twice. apply update_ext. intros x. apply edit_children_remove.
Qed.

End Builder.

(** ** The document of a run that succeeds *)

Lemma firstn_remove_nth {A : Type} (k : nat) (l bs : list A) (x : A) :
  nth_error l k = Some x ->
  firstn k (remove_nth k l ++ bs)%list = firstn k l.
Proof.
  intros H. assert (Hk : k < List.length l) by (apply nth_error_Some; congruence).
  unfold remove_nth. rewrite <- app_assoc, firstn_app, firstn_firstn.
  rewrite length_firstn. replace (Nat.min k (List.length l)) with k by lia.
  replace (k - k) with 0 by lia. replace (Nat.min k k) with k by lia.
  cbn [firstn]. apply app_nil_r.
Qed.

Lemma filter_remove_nth {A : Type} (f : A -> bool) (k : nat) (l : list A)
  (x : A) :
  nth_error l k = Some x -> f x = true ->
  S (List.length (filter f (remove_nth k l))) = List.length (filter f l).
Proof.
  intros H Hx. rewrite <- (firstn_skipn_middle k l H) at 2.
  unfold remove_nth. rewrite !filter_app. cbn [filter]. rewrite Hx.
  rewrite !length_app. cbn [List.length]. lia.
Qed.

Lemma filter_is_block_erase (l l' : list Element) :
  map erase l = map erase l' ->
  List.length (filter is_block l) = List.length (filter is_block l').
Proof.
  revert l'. induction l as [|x l IH]; intros [|x' l'] H; try discriminate;
    [reflexivity|].
  cbn [map] in H. injection H as Hx Hl.
  assert (Hb : is_block x = is_block x').
  { unfold is_block. now rewrite <- (tag_erase x), Hx, tag_erase. }
  cbn [filter]. rewrite Hb.
  destruct (is_block x'); cbn [List.length]; now rewrite (IH l' Hl).
Qed.

Lemma filter_all {A : Type} (f : A -> bool) (l : list A) :
  Forall (fun x => f x = true) l -> filter f l = l.
Proof.
  induction 1 as [|x l Hx _ IH]; cbn [filter]; [reflexivity|].
  now rewrite Hx, IH.
Qed.

Lemma filter_false {A : Type} (f : A -> bool) (l : list A) :
  Forall (fun x => f x = false) l -> filter f l = [].
Proof.
  induction 1 as [|x l Hx _ IH]; cbn [filter]; [reflexivity|].
  now rewrite Hx.
Qed.

Lemma filter_none {A : Type} (f : A -> bool) (l : list A) :
  filter f l = [] -> Forall (fun x => f x = false) l.
Proof.
  induction l as [|x l IH]; cbn [filter]; [constructor|].
  destruct (f x) eqn:Hx; [discriminate|]. intros H. constructor; auto.
Qed.

Section Run.

Variables (args : Args) (now : datetime) (rnd : nat -> nat).
Variables (template out root1 block : Element).
Variables (txs : list Transaction) (blocks : list Element).
Variables (pp : path) (k : nat).

Let id := createMsgId now rnd (id_prefix args) ++ "-1".

Hypothesis Hhdr :
  stamp_header args now rnd (List.length txs) template = Ok (root1, id).
Hypothesis Hpp : find (desc "PmtInf") root1 = Some pp.
Hypothesis Hq : find (desc "CdtTrfTxInf") root1 = Some (pp ++ [k])%list.
Hypothesis Hblock : get (pp ++ [k])%list root1 = Some block.
Hypothesis Hlen : List.length blocks = List.length txs.
Hypothesis Hnth :
  forall n tx, nth_error txs n = Some tx ->
               exists b, nth_error blocks n = Some b /\
                         fill_block id block n tx = Ok b.
Hypothesis Hout :
  out = update pp (edit_children (fun cs => remove_nth k cs ++ blocks)%list)
               root1.

Lemma run_erase : erase root1 = erase template.
Proof. now destruct (stamp_header_inv _ _ _ _ _ _ _ Hhdr) as (_ & H & _). Qed.

Lemma run_parent :
  exists par, get pp root1 = Some par /\ nth_error (children par) k = Some block.
Proof.
  pose proof Hblock as H. rewrite get_app in H.
  destruct (get pp root1) as [par|]; [|discriminate]. exists par.
  split; [reflexivity|]. cbn [get] in H.
  now destruct (nth_error (children par) k) as [c|]; [injection H as -> |].
Qed.

Lemma run_firstn (par : Element) :
  get pp root1 = Some par ->
  firstn k (remove_nth k (children par) ++ blocks)%list
  = firstn k (children par).
Proof.
  intros Hpar. destruct run_parent as (par' & Hpar' & Hk).
  rewrite Hpar in Hpar'. injection Hpar' as <-.
  now apply firstn_remove_nth with block.
Qed.

(** A field that is found before the transaction block reads in the
    document what it read after the header was filled in. *)
Lemma run_field_kept (name : string) :
  before_block name template = true ->
  field (desc name) out = field (desc name) root1.
Proof.
  unfold before_block.
  rewrite <- (find_same_structure (desc name) root1 template run_erase).
  rewrite <- (find_same_structure (desc "CdtTrfTxInf") root1 template run_erase).
  rewrite Hq. destruct (find (desc name) root1) as [p|] eqn:Hp; [|discriminate].
  intros Hprec. apply field_text_at.
  - rewrite Hp, Hout. unfold desc in *. rewrite find_desc_first_in in *.
    apply (first_in_edit _ _ k); [exact Hp | exact Hprec | apply run_firstn].
  - intros p' Hp'. rewrite Hp in Hp'. injection Hp' as <-. rewrite Hout.
    apply (text_at_edit _ k); [exact Hprec | apply run_firstn].
Qed.

Lemma run_payment_information :
  exists par,
    get pp root1 = Some par /\
    nth_error (children par) k = Some block /\
    payment_information out
    = Some (with_children par (remove_nth k (children par) ++ blocks)%list).
Proof.
  destruct run_parent as (par & Hpar & Hk). exists par.
  split; [exact Hpar|]. split; [exact Hk|].
  unfold payment_information.
  assert (Hfind : find (desc "PmtInf") out = Some pp).
  { rewrite Hout. unfold desc in *. rewrite find_desc_first_in in *.
    apply (first_in_edit _ _ k);
      [exact Hpp | apply precedes_prefix | apply run_firstn]. }
  rewrite Hfind, Hout. now rewrite (get_update_same pp _ root1 par Hpar).
Qed.

Lemma run_block_tag : is_block block = true.
Proof.
  destruct (find_sound _ _ _ Hq) as (d & Hd & Htag).
  rewrite Hblock in Hd. injection Hd as <-. unfold is_block.
  rewrite Htag. apply String.eqb_refl.
Qed.

(** With one transaction block in the template, no block is left among the
    children that the payment information had. *)
Lemma run_rest_no_block (par : Element) :
  get pp root1 = Some par ->
  one_block template = true ->
  Forall (fun e => is_block e = false) (remove_nth k (children par)).
Proof.
  intros Hpar. unfold one_block, payment_information.
  rewrite <- (find_same_structure (desc "PmtInf") root1 template run_erase), Hpp.
  destruct (get pp template) as [par0|] eqn:Hpar0; [|discriminate].
  intros Hone. apply Nat.eqb_eq in Hone.
  assert (Hsame : map erase (children par) = map erase (children par0)).
  { pose proof (get_erase pp root1) as H1. pose proof (get_erase pp template) as H0.
    rewrite run_erase, H0, Hpar, Hpar0 in H1. cbn [option_map] in H1.
    injection H1 as H1. now rewrite <- !children_erase, H1. }
  destruct run_parent as (par' & Hpar' & Hk).
  rewrite Hpar in Hpar'. injection Hpar' as <-.
  pose proof (filter_remove_nth is_block k (children par) block Hk run_block_tag)
    as Hcount.
  rewrite (filter_is_block_erase _ _ Hsame), Hone in Hcount.
  apply filter_none, length_zero_iff_nil. lia.
Qed.

Lemma run_blocks_filled (b : Element) :
  In b blocks ->
  exists n tx, nth_error txs n = Some tx /\ nth_error blocks n = Some b /\
               fill_block id block n tx = Ok b.
Proof.
  intros Hin. apply In_nth_error in Hin. destruct Hin as (n & Hn).
  assert (Hlt : n < List.length txs).
  { rewrite <- Hlen. apply nth_error_Some. congruence. }
  destruct (nth_error txs n) as [tx|] eqn:Htx;
    [|apply nth_error_None in Htx; lia].
  destruct (Hnth n tx Htx) as (b' & Hb' & Hfill).
  rewrite Hn in Hb'. injection Hb' as <-. now exists n, tx.
Qed.

Lemma run_blocks_tag : Forall (fun b => is_block b = true) blocks.
Proof.
  apply Forall_forall. intros b Hb.
  destruct (run_blocks_filled b Hb) as (n & tx & _ & _ & Hfill).
  destruct (fill_block_inv _ _ _ _ _ Hfill) as (He & _).
  unfold is_block. rewrite <- (tag_erase b), He, tag_erase.
  apply run_block_tag.
Qed.

(** With one transaction block in the template, the transaction blocks of
    the document are the filled copies, in their order. *)
Lemma run_transaction_blocks :
  one_block template = true -> transaction_blocks out = blocks.
Proof.
  intros Hone. destruct run_payment_information as (par & Hpar & _ & Hpay).
  unfold transaction_blocks. rewrite Hpay. cbn [children with_children].
  rewrite filter_app, (filter_all _ _ run_blocks_tag).
  now rewrite (filter_false _ _ (run_rest_no_block par Hpar Hone)).
Qed.

(** The block that is copied has the structure of the block of the
    template, and is that block when no header field lies inside it. *)
Lemma run_block_template :
  exists block0,
    template_block template = Some block0 /\
    erase block = erase block0 /\
    (headers_outside_block template = true -> block = block0).
Proof.
  unfold template_block, headers_outside_block.
  rewrite <- (find_same_structure (desc "CdtTrfTxInf") root1 template run_erase),
    Hq.
  pose proof (get_erase (pp ++ [k])%list root1) as H1.
  pose proof (get_erase (pp ++ [k])%list template) as H0.
  rewrite run_erase, H0, Hblock in H1. cbn [option_map] in H1.
  destruct (get (pp ++ [k])%list template) as [block0|] eqn:Hb0;
    [|discriminate].
  cbn [option_map] in H1. injection H1 as H1. exists block0.
  split; [reflexivity|]. split; [now symmetry|].
  intros Hout'. rewrite forallb_forall in Hout'.
  destruct (stamp_header_inv _ _ _ _ _ _ _ Hhdr) as (_ & _ & _ & _ & _ & _ & _ & _ & Hget).
  specialize (Hget (pp ++ [k])%list). rewrite Hblock, Hb0 in Hget.
  assert (Some block = Some block0) as [= ->]; [|reflexivity].
  apply Hget. intros x p Hx Hp. specialize (Hout' x Hx). rewrite Hp in Hout'.
  now destruct (is_prefix (pp ++ [k])%list p).
Qed.

End Run.

(** ** The captured time in the document *)

Section Clock.

Variable now : datetime.
Hypothesis Hvalid : valid_datetime now.

Lemma date_isoformat_iso :
  date_isoformat now = Spec.iso_date (year now) (month now) (day now).
Proof.
  destruct Hvalid as (Hy & Hm & Hd & _). unfold date_isoformat, Spec.iso_date.
  rewrite (format_0d_zero_padded 4 (year now)) by (try apply Hy; lia).
  now rewrite !format_0d_zero_padded by (change (10 ^ 2) with 100; lia).
Qed.

Lemma iso_date_no_dot (y m d : nat) :
  all_chars (fun c => negb (c =? ".")%char) (Spec.iso_date y m d) = true.
Proof.
  unfold Spec.iso_date.
  now rewrite !all_chars_append, !zero_padded_no_dot.
Qed.

(** [now.isoformat().split('.')[0]] is the time to the second, whether the
    microseconds are zero or not. *)
Lemma isoformat_seconds :
  Py.split_head "." (isoformat now)
  = Spec.iso_seconds (year now) (month now) (day now) (hour now) (minute now)
                     (second now).
Proof.
  pose proof Hvalid as (_ & _ & _ & Hh & Hmi & Hs & _).
  unfold isoformat, Spec.iso_seconds. rewrite date_isoformat_iso.
  rewrite !format_0d_zero_padded by (change (10 ^ 2) with 100; lia).
  rewrite split_head_append by apply iso_date_no_dot.
  rewrite (split_head_append _ "T") by reflexivity.
  rewrite split_head_append by apply zero_padded_no_dot.
  rewrite (split_head_append _ ":") by reflexivity.
  rewrite split_head_append by apply zero_padded_no_dot.
  rewrite (split_head_append _ ":") by reflexivity.
  rewrite split_head_append by apply zero_padded_no_dot.
  destruct (microsecond now =? 0); cbn [Py.split_head append Ascii.eqb];
    now rewrite ?append_nil_r.
Qed.

End Clock.

Lemma length_iso_date (y m d : nat) : String.length (Spec.iso_date y m d) = 10.
Proof.
  unfold Spec.iso_date.
  repeat (rewrite ?length_append, ?length_zero_padded; cbn [String.length]).
  reflexivity.
Qed.

Lemma length_iso_seconds (y m d h mi s : nat) :
  String.length (Spec.iso_seconds y m d h mi s) = 19.
Proof.
  unfold Spec.iso_seconds.
  repeat (rewrite ?length_append, ?length_iso_date, ?length_zero_padded;
          cbn [String.length]).
  reflexivity.
Qed.

Lemma digits_only_iso_seconds (y m d h mi s : nat) :
  Spec.digits_only (Spec.iso_seconds y m d h mi s)
  = Spec.zero_padded 4 y ++ Spec.zero_padded 2 m ++ Spec.zero_padded 2 d ++
    Spec.zero_padded 2 h ++ Spec.zero_padded 2 mi ++ Spec.zero_padded 2 s.
Proof.
  unfold Spec.iso_seconds, Spec.iso_date.
  rewrite !digits_only_append.
  rewrite !(digits_only_digits (Spec.zero_padded _ _))
    by apply zero_padded_all_digits.
  change (Spec.digits_only "-") with "". change (Spec.digits_only "T") with "".
  change (Spec.digits_only ":") with "". cbn [append].
  now rewrite !append_assoc.
Qed.

(** ** The built document *)

(** C9. The creation timestamp of the document is the captured time to the
    second in ISO 8601 form, [YYYY-MM-DDTHH:MM:SS]: 19 characters, no
    fraction of a second and no offset, whatever the microseconds of the
    captured time are. *)
Theorem creation_timestamp_whole_seconds (args : Args) (now : datetime)
  (rnd : nat -> nat) (rows : list (list string)) (template out : Element) :
  process_xml args now rnd rows template = Ok out ->
  before_block "CreDtTm" template = true ->
  valid_datetime now ->
  field (desc "CreDtTm") out
  = Some (Spec.iso_seconds (year now) (month now) (day now) (hour now)
                           (minute now) (second now)) /\
  String.length (Spec.iso_seconds (year now) (month now) (day now) (hour now)
                                  (minute now) (second now)) = 19.
Proof.
  intros Hrun Hbefore Hvalid. split; [|apply length_iso_seconds].
  destruct (process_xml_inv _ _ _ _ _ _ Hrun)
    as (txs & root1 & pp & k & block & blocks & _ & Hhdr & Hpp & Hq & Hblock
        & _ & _ & Hout).
  rewrite (run_field_kept _ _ _ _ _ _ _ _ _ _ _ Hhdr Hpp Hq Hblock Hout _ Hbefore).
  destruct (stamp_header_inv _ _ _ _ _ _ _ Hhdr) as (_ & _ & _ & _ & Hcre & _).
  now rewrite Hcre, (isoformat_seconds now Hvalid).
Qed.

(** C10. The time fields of the document come from the one captured time:
    the requested execution date is the date part of the creation
    timestamp, and the digits between the dashes of the message identifier
    are the digits of the creation timestamp. *)
Theorem time_fields_agree (args : Args) (now : datetime) (rnd : nat -> nat)
  (rows : list (list string)) (template out : Element) :
  process_xml args now rnd rows template = Ok out ->
  before_block "MsgId" template = true ->
  before_block "CreDtTm" template = true ->
  before_block "ReqdExctnDt" template = true ->
  valid_datetime now -> four_digit_year now ->
  exists creDtTm suffix,
    field (desc "CreDtTm") out = Some creDtTm /\
    field (desc "ReqdExctnDt") out = Some (substring 0 10 creDtTm) /\
    field (desc "MsgId") out
    = Some (normalize_prefix (id_prefix args) ++ "-" ++
            Spec.digits_only creDtTm ++ "-" ++ suffix) /\
    String.length (Spec.digits_only creDtTm) = 14 /\
    String.length suffix = 7.
Proof.
  intros Hrun Hmsg Hcre Hdate Hvalid H4.
  destruct (process_xml_inv _ _ _ _ _ _ Hrun)
    as (txs & root1 & pp & k & block & blocks & _ & Hhdr & Hpp & Hq & Hblock
        & _ & _ & Hout).
  pose proof (run_field_kept _ _ _ _ _ _ _ _ _ _ _ Hhdr Hpp Hq Hblock Hout)
    as Hkept.
  destruct (stamp_header_inv _ _ _ _ _ _ _ Hhdr)
    as (_ & _ & _ & Hf1 & Hf2 & _ & _ & Hf3 & _).
  exists (Spec.iso_seconds (year now) (month now) (day now) (hour now)
                           (minute now) (second now)), (random_suffix rnd).
  rewrite (Hkept _ Hcre), (Hkept _ Hdate), (Hkept _ Hmsg), Hf1, Hf2, Hf3.
  rewrite (isoformat_seconds now Hvalid), (date_isoformat_iso now Hvalid).
  rewrite digits_only_iso_seconds.
  split; [reflexivity|]. split.
  { unfold Spec.iso_seconds.
    match goal with
    | |- context [substring 0 10 (?d ++ ?r)] =>
        pose proof (substring_append d r) as Hsub
    end.
    rewrite length_iso_date in Hsub. now rewrite Hsub. }
  split.
  { unfold createMsgId. rewrite (timestamp_segment_digits now Hvalid H4).
    now rewrite !append_assoc. }
  split; [|reflexivity].
  repeat (rewrite ?length_append, ?length_zero_padded). reflexivity.
Qed.

(** C3. The transaction count of the document is the number of rows in
    decimal, and the payment information holds that many transaction
    blocks: its children are the children that are no transaction block,
    followed by the blocks made for the rows; the block of the template is
    not among them. *)
Theorem transaction_count_and_blocks (args : Args) (now : datetime)
  (rnd : nat -> nat) (rows : list (list string)) (template out : Element) :
  process_xml args now rnd rows template = Ok out ->
  one_block template = true ->
  before_block "NbOfTxs" template = true ->
  field (desc "NbOfTxs") out = Some (Py.str (List.length rows)) /\
  Spec.decimal_value (Py.str (List.length rows)) = List.length rows /\
  all_chars is_digit (Py.str (List.length rows)) = true /\
  List.length (transaction_blocks out) = List.length rows /\
  exists parent rest,
    payment_information out = Some parent /\
    children parent = (rest ++ transaction_blocks out)%list /\
    Forall (fun e => is_block e = false) rest.
Proof.
  intros Hrun Hone Hbefore.
  destruct (process_xml_inv _ _ _ _ _ _ Hrun)
    as (txs & root1 & pp & k & block & blocks & Htxs & Hhdr & Hpp & Hq & Hblock
        & Hlen & Hnth & Hout).
  assert (Hrows : List.length txs = List.length rows).
  { rewrite (get_credit_transactions_ok rows) in Htxs
      by apply (get_credit_transactions_inv rows txs Htxs).
    injection Htxs as <-. apply length_map. }
  pose proof (run_transaction_blocks _ _ _ _ _ _ _ _ _ _ _ Hhdr Hpp Hq Hblock
                Hlen Hnth Hout Hone) as Hblocks.
  destruct (stamp_header_inv _ _ _ _ _ _ _ Hhdr) as (_ & _ & _ & _ & _ & Hnb & _).
  split.
  { rewrite (run_field_kept _ _ _ _ _ _ _ _ _ _ _ Hhdr Hpp Hq Hblock Hout _
               Hbefore), Hnb. now rewrite Hrows. }
  split; [apply decimal_value_str|]. split; [apply str_all_digits|].
  split; [now rewrite Hblocks, Hlen|].
  destruct (run_payment_information _ _ _ _ _ _ Hpp Hq Hblock Hout)
    as (par & Hpar & _ & Hpay).
  eexists. exists (remove_nth k (children par)).
  split; [exact Hpay|]. split; [now rewrite Hblocks|].
  apply (run_rest_no_block _ _ _ _ _ _ _ _ _ _ Hhdr Hpp Hq Hblock Hlen par Hpar
           Hone).
Qed.

(** C2. The payment information identifier is the message identifier
    followed by "-1"; the transaction block at position [i] is the one made
    for row [i]: its end-to-end identifier is the payment information
    identifier, a dash and [i] padded with zeros to 4 digits, and its
    amount, creditor name, creditor account and remittance text are fields
    0, 2, 1 and 4 of the row. *)
Theorem blocks_follow_rows (args : Args) (now : datetime) (rnd : nat -> nat)
  (rows : list (list string)) (template out : Element) :
  process_xml args now rnd rows template = Ok out ->
  one_block template = true ->
  before_block "PmtInfId" template = true ->
  field (desc "PmtInfId") out
  = Some (createMsgId now rnd (id_prefix args) ++ "-1") /\
  forall i row,
    nth_error rows i = Some row ->
    exists b,
      nth_error (transaction_blocks out) i = Some b /\
      field (desc "EndToEndId") b
      = Some ((createMsgId now rnd (id_prefix args) ++ "-1") ++ "-" ++
              Spec.left_pad_zero 4 (Py.str i)) /\
      (i < 10 ^ 4 ->
       Spec.left_pad_zero 4 (Py.str i) = Spec.zero_padded 4 i) /\
      field (desc "InstdAmt") b = nth_error row 0 /\
      field (desc_path "Cdtr" ["Nm"]) b = nth_error row 2 /\
      field (desc_path "CdtrAcct" ["Id"; "IBAN"]) b = nth_error row 1 /\
      field (desc "Ustrd") b = nth_error row 4.
Proof.
  intros Hrun Hone Hbefore.
  destruct (process_xml_inv _ _ _ _ _ _ Hrun)
    as (txs & root1 & pp & k & block & blocks & Htxs & Hhdr & Hpp & Hq & Hblock
        & Hlen & Hnth & Hout).
  pose proof (run_transaction_blocks _ _ _ _ _ _ _ _ _ _ _ Hhdr Hpp Hq Hblock
                Hlen Hnth Hout Hone) as Hblocks.
  destruct (stamp_header_inv _ _ _ _ _ _ _ Hhdr)
    as (_ & _ & _ & _ & _ & _ & Hpmt & _).
  split.
  { now rewrite (run_field_kept _ _ _ _ _ _ _ _ _ _ _ Hhdr Hpp Hq Hblock Hout _
                   Hbefore). }
  intros i row Hrow.
  pose proof (get_credit_transactions_inv rows txs Htxs) as Hlong.
  rewrite (get_credit_transactions_ok rows Hlong) in Htxs. injection Htxs as <-.
  destruct (Hnth i _ (map_nth_error _ _ _ Hrow)) as (b & Hb & Hfill).
  exists b. rewrite Hblocks. split; [exact Hb|].
  destruct (fill_block_inv _ _ _ _ _ Hfill)
    as (_ & _ & He2e & Hamt & Hnm & Hiban & Hustrd & _).
  split; [exact He2e|].
  split; [intros Hi; apply (format_0d_zero_padded 4 i); [lia | exact Hi]|].
  rewrite Hamt, Hnm, Hiban, Hustrd. cbn [amount creditor_name iban descr].
  rewrite Forall_forall in Hlong.
  pose proof (Hlong row (nth_error_In _ _ Hrow)) as Hlen5.
  destruct row as [|a0 [|a1 [|a2 [|a3 [|a4 rest]]]]]; cbn [List.length] in Hlen5;
    try lia.
  repeat split.
Qed.

(** C5. Every transaction block of the document has the structure of the
    block of the template: the same elements in the same order, with the
    same tags, attributes and tails. Its text differs from the text of the
    block of the template at the five nodes that are looked up in the copy
    (end-to-end identifier, amount, creditor name, creditor account,
    remittance text) and nowhere else. A deep copy of a tree is the tree. *)
Theorem blocks_keep_template_structure (args : Args) (now : datetime)
  (rnd : nat -> nat) (rows : list (list string)) (template out : Element) :
  process_xml args now rnd rows template = Ok out ->
  one_block template = true ->
  headers_outside_block template = true ->
  exists block0,
    template_block template = Some block0 /\
    deepcopy block0 = block0 /\
    forall b,
      In b (transaction_blocks out) ->
      erase b = erase block0 /\
      forall q,
        (forall x p, In x block_lookups -> find x block0 = Some p -> q <> p) ->
        text_at q b = text_at q block0.
Proof.
  intros Hrun Hone Houtside.
  destruct (process_xml_inv _ _ _ _ _ _ Hrun)
    as (txs & root1 & pp & k & block & blocks & Htxs & Hhdr & Hpp & Hq & Hblock
        & Hlen & Hnth & Hout).
  pose proof (run_transaction_blocks _ _ _ _ _ _ _ _ _ _ _ Hhdr Hpp Hq Hblock
                Hlen Hnth Hout Hone) as Hblocks.
  destruct (run_block_template _ _ _ _ _ _ _ _ _ _ Hhdr Hq Hblock Hnth)
    as (block0 & Hb0 & _ & Hsame).
  specialize (Hsame Houtside). subst block0.
  exists block. split; [exact Hb0|]. split; [apply deepcopy_id|].
  intros b Hb. rewrite Hblocks in Hb.
  destruct (run_blocks_filled _ _ _ _ _ _ Hlen Hnth b Hb)
    as (n & tx & _ & _ & Hfill).
  destruct (fill_block_inv _ _ _ _ _ Hfill)
    as (He & _ & _ & _ & _ & _ & _ & Htext).
  split; [exact He | exact Htext].
Qed.

(** ** Failures *)

(** A run that succeeds has read rows of at least five fields and has found
    every node it looked up: those of the document in the template, and,
    when there is a row, those of the block in the block of the template. *)
Lemma process_xml_ok_present (args : Args) (now : datetime) (rnd : nat -> nat)
  (rows : list (list string)) (template out : Element) :
  process_xml args now rnd rows template = Ok out ->
  Forall (fun row => 5 <= List.length row) rows /\
  Forall (fun x => present x template = true) document_lookups /\
  (rows <> [] ->
   forall block0, template_block template = Some block0 ->
                  Forall (fun x => present x block0 = true) block_lookups).
Proof.
  intros Hrun.
  destruct (process_xml_inv _ _ _ _ _ _ Hrun)
    as (txs & root1 & pp & k & block & blocks & Htxs & Hhdr & Hpp & Hq & Hblock
        & Hlen & Hnth & Hout).
  pose proof (get_credit_transactions_inv rows txs Htxs) as Hlong.
  destruct (stamp_header_inv _ _ _ _ _ _ _ Hhdr) as (_ & He & Hhead & _).
  split; [exact Hlong|]. split.
  - unfold document_lookups. apply Forall_app. split; [exact Hhead|].
    repeat constructor; unfold present;
      [rewrite <- (find_same_structure _ root1 template He), Hq
      |rewrite <- (find_same_structure _ root1 template He), Hpp];
      reflexivity.
  - intros Hrows block0 Hb0.
    destruct (run_block_template _ _ _ _ _ _ _ _ _ _ Hhdr Hq Hblock Hnth)
      as (block0' & Hb0' & Heb & _).
    rewrite Hb0 in Hb0'. injection Hb0' as <-.
    rewrite (get_credit_transactions_ok rows Hlong) in Htxs.
    injection Htxs as <-.
    destruct rows as [|row rows]; [congruence|].
    destruct (Hnth 0 _ eq_refl) as (b & _ & Hfill).
    destruct (fill_block_inv _ _ _ _ _ Hfill) as (_ & Hall & _).
    apply Forall_forall. intros x Hx. rewrite Forall_forall in Hall.
    specialize (Hall x Hx). unfold present in *.
    now rewrite <- (find_same_structure x block block0 Heb).
Qed.

Lemma Forall_Exists_false {A : Type} (f : A -> bool) (l : list A) :
  Forall (fun x => f x = true) l -> Exists (fun x => f x = false) l -> False.
Proof.
  rewrite Forall_forall, Exists_exists. intros Hall (x & Hx & Hf).
  rewrite (Hall x Hx) in Hf. discriminate.
Qed.

(** C7, as the specification states it, fails for an input without rows:
    the nodes of the block are looked up once for each row, so that a
    template whose block lacks one of them is filled in and written. *)
Lemma main_without_rows_counterexample :
  template_block template_without_ustrd = Some block_without_ustrd /\
  present (desc "Ustrd") block_without_ustrd = false /\
  (exists tree,
      main sample_args sample_now sample_rnd [] template_without_ustrd []
      = (Ok tt, [("out.xml", tree)])) /\
  ~ exists e,
      main sample_args sample_now sample_rnd [] template_without_ustrd []
      = (Err e, []).
Proof.
  split; [vm_compute; reflexivity|]. split; [vm_compute; reflexivity|].
  split; [eexists; vm_compute; reflexivity|].
  intros [e H]. vm_compute in H. discriminate H.
Qed.

(** C7, amended. The run stops with an error, and writes nothing, when a
    row has fewer than five fields (the error is then an index out of
    range), when a node that is looked up in the document is absent from
    the template, and when there is at least one row and a node that is
    looked up in the transaction block is absent from the block of the
    template. A run writes its output only when it has built the whole
    document. *)
Theorem main_aborts_without_output (args : Args) (now : datetime)
  (rnd : nat -> nat) (rows : list (list string)) (template : Element)
  (fs : files) :
  (Exists (fun row => List.length row < 5) rows ->
   main args now rnd rows template fs = (Err IndexError, fs)) /\
  (Exists (fun x => present x template = false) document_lookups ->
   exists e, main args now rnd rows template fs = (Err e, fs)) /\
  (rows <> [] ->
   forall block0,
     template_block template = Some block0 ->
     Exists (fun x => present x block0 = false) block_lookups ->
     exists e, main args now rnd rows template fs = (Err e, fs)) /\
  (forall e fs', main args now rnd rows template fs = (Err e, fs') -> fs' = fs) /\
  (forall fs',
      main args now rnd rows template fs = (Ok tt, fs') ->
      exists tree,
        process_xml args now rnd rows template = Ok tree /\
        fs' = (output_file args, tree) :: fs).
Proof.
  unfold main. split; [|split; [|split; [|split]]].
  - intros Hshort. unfold process_xml.
    now rewrite (get_credit_transactions_short rows Hshort).
  - intros Habs.
    destruct (process_xml args now rnd rows template) as [out|e] eqn:Hrun;
      [|now exists e].
    destruct (process_xml_ok_present _ _ _ _ _ _ Hrun) as (_ & Hall & _).
    destruct (Forall_Exists_false _ _ Hall Habs).
  - intros Hrows block0 Hb0 Habs.
    destruct (process_xml args now rnd rows template) as [out|e] eqn:Hrun;
      [|now exists e].
    destruct (process_xml_ok_present _ _ _ _ _ _ Hrun) as (_ & _ & Hall).
    destruct (Forall_Exists_false _ _ (Hall Hrows block0 Hb0) Habs).
  - intros e fs'.
    destruct (process_xml args now rnd rows template); [discriminate|].
    now intros [= _ <-].
  - intros fs'.
    destruct (process_xml args now rnd rows template) as [tree|];
      [|discriminate].
    intros [= <-]. now exists tree.
Qed.

(** ** The sample run *)

Lemma sample_run :
  process_xml sample_args sample_now sample_rnd sample_rows sample_template
  = Ok sample_out.
Proof. vm_compute. reflexivity. Qed.

Lemma get_credit_transactions_positional_witness :
  exists txs,
    get_credit_transactions sample_rows = Ok txs /\
    List.length txs = List.length sample_rows /\
    (forall i row,
        nth_error sample_rows i = Some row ->
        exists tx,
          nth_error txs i = Some tx /\
          nth_error row 0 = Some (amount tx) /\
          nth_error row 1 = Some (iban tx) /\
          nth_error row 2 = Some (creditor_name tx) /\
          nth_error row 4 = Some (descr tx)) /\
    (forall a b c d d' e rest,
        transaction_of_row (a :: b :: c :: d :: e :: rest)
        = transaction_of_row (a :: b :: c :: d' :: e :: rest)).
Proof.
  apply (get_credit_transactions_positional sample_rows).
  repeat constructor.
Defined.

Lemma creation_timestamp_whole_seconds_witness :
  field (desc "CreDtTm") sample_out = Some "2024-02-29T09:05:07" /\
  String.length "2024-02-29T09:05:07" = 19.
Proof.
  apply (creation_timestamp_whole_seconds sample_args sample_now sample_rnd
           sample_rows sample_template sample_out);
    [exact sample_run | vm_compute; reflexivity | apply sample_now_valid].
Defined.

Lemma time_fields_agree_witness :
  exists creDtTm suffix,
    field (desc "CreDtTm") sample_out = Some creDtTm /\
    field (desc "ReqdExctnDt") sample_out = Some (substring 0 10 creDtTm) /\
    field (desc "MsgId") sample_out
    = Some (normalize_prefix "ABCDE" ++ "-" ++ Spec.digits_only creDtTm ++
            "-" ++ suffix) /\
    String.length (Spec.digits_only creDtTm) = 14 /\
    String.length suffix = 7.
Proof.
  apply (time_fields_agree sample_args sample_now sample_rnd sample_rows
           sample_template sample_out);
    [exact sample_run | vm_compute; reflexivity | vm_compute; reflexivity
    | vm_compute; reflexivity | apply sample_now_valid | apply sample_now_valid].
Defined.

Lemma transaction_count_and_blocks_witness :
  field (desc "NbOfTxs") sample_out = Some "2" /\
  Spec.decimal_value "2" = 2 /\
  all_chars is_digit "2" = true /\
  List.length (transaction_blocks sample_out) = 2 /\
  exists parent rest,
    payment_information sample_out = Some parent /\
    children parent = (rest ++ transaction_blocks sample_out)%list /\
    Forall (fun e => is_block e = false) rest.
Proof.
  apply (transaction_count_and_blocks sample_args sample_now sample_rnd
           sample_rows sample_template sample_out);
    [exact sample_run | vm_compute; reflexivity | vm_compute; reflexivity].
Defined.

Lemma blocks_follow_rows_witness :
  field (desc "PmtInfId") sample_out
  = Some (createMsgId sample_now sample_rnd "ABCDE" ++ "-1") /\
  forall i row,
    nth_error sample_rows i = Some row ->
    exists b,
      nth_error (transaction_blocks sample_out) i = Some b /\
      field (desc "EndToEndId") b
      = Some ((createMsgId sample_now sample_rnd "ABCDE" ++ "-1") ++ "-" ++
              Spec.left_pad_zero 4 (Py.str i)) /\
      (i < 10 ^ 4 ->
       Spec.left_pad_zero 4 (Py.str i) = Spec.zero_padded 4 i) /\
      field (desc "InstdAmt") b = nth_error row 0 /\
      field (desc_path "Cdtr" ["Nm"]) b = nth_error row 2 /\
      field (desc_path "CdtrAcct" ["Id"; "IBAN"]) b = nth_error row 1 /\
      field (desc "Ustrd") b = nth_error row 4.
Proof.
  apply (blocks_follow_rows sample_args sample_now sample_rnd sample_rows
           sample_template sample_out);
    [exact sample_run | vm_compute; reflexivity | vm_compute; reflexivity].
Defined.

Lemma blocks_keep_template_structure_witness :
  exists block0,
    template_block sample_template = Some block0 /\
    deepcopy block0 = block0 /\
    forall b,
      In b (transaction_blocks sample_out) ->
      erase b = erase block0 /\
      forall q,
        (forall x p, In x block_lookups -> find x block0 = Some p -> q <> p) ->
        text_at q b = text_at q block0.
Proof.
  apply (blocks_keep_template_structure sample_args sample_now sample_rnd
           sample_rows sample_template sample_out);
    [exact sample_run | vm_compute; reflexivity | vm_compute; reflexivity].
Defined.

(** The example of the specification: one row, one block, its fields and
    its end-to-end identifier. *)
Example round_trip :
  exists doc b,
    process_xml sample_args sample_now sample_rnd
      [["300.00"; "NL23RABO0123456789"; "A. de Vries"; "Wages";
        "Wages1 Feb - 28 Feb"]] sample_template = Ok doc /\
    transaction_blocks doc = [b] /\
    field (desc_path "Cdtr" ["Nm"]) b = Some "A. de Vries" /\
    field (desc_path "CdtrAcct" ["Id"; "IBAN"]) b = Some "NL23RABO0123456789" /\
    field (desc "InstdAmt") b = Some "300.00" /\
    field (desc "Ustrd") b = Some "Wages1 Feb - 28 Feb" /\
    field (desc "EndToEndId") b = Some "ABCDE-20240229090507-dkry5cj-1-0000".
Proof. do 2 eexists. vm_compute. repeat split. Qed.

(** * Further properties of the program *)

(** ** Chains of lookup-and-assign steps *)

Section Chain.

Lemma stamp_err (x : xpath) (v : string) (e : Element) (ex : exn) :
  stamp x v e = Err ex -> ex = AttributeError.
Proof. unfold stamp. destruct (find x e); [discriminate | now intros [= <-]]. Qed.

Lemma stamp_all_app (l1 l2 : list (xpath * string)) (e : Element) :
  stamp_all (l1 ++ l2)%list e = (e' <- stamp_all l1 e ;; stamp_all l2 e').
Proof.
  revert e. induction l1 as [|[x v] l1 IH]; intros e; cbn [app stamp_all bind];
    [reflexivity|].
  destruct (stamp x v e) as [e'|]; cbn [bind]; [apply IH | reflexivity].
Qed.

Lemma stamp_all_erase (l : list (xpath * string)) :
  forall e e', stamp_all l e = Ok e' -> erase e' = erase e.
Proof.
  induction l as [|[x v] l IH]; intros e e'; cbn [stamp_all].
  - now intros [= <-].
  - destruct (stamp x v e) as [e1|] eqn:E; [|discriminate]. cbn [bind].
    intros H. now rewrite (IH _ _ H), (stamp_erase _ _ _ _ E).
Qed.

(** A chain fails with an [AttributeError] only. *)
Lemma stamp_all_err (l : list (xpath * string)) :
  forall e ex, stamp_all l e = Err ex -> ex = AttributeError.
Proof.
  induction l as [|[x v] l IH]; intros e ex; cbn [stamp_all]; [discriminate|].
  destruct (stamp x v e) as [e1|ex1] eqn:E; cbn [bind].
  - apply IH.
  - intros [= <-]. now apply stamp_err in E.
Qed.

(** A chain succeeds exactly when each of its lookups finds a node. *)
Lemma stamp_all_present (l : list (xpath * string)) :
  forall e e', stamp_all l e = Ok e' ->
               Forall (fun xv => present (fst xv) e = true) l.
Proof.
  induction l as [|[x v] l IH]; intros e e'; cbn [stamp_all]; [constructor|].
  destruct (stamp x v e) as [e1|] eqn:E; [|discriminate]. cbn [bind].
  intros H. constructor.
  - cbn [fst]. now apply (stamp_present _ _ _ _ e E).
  - pose proof (stamp_erase _ _ _ _ E) as He.
    apply Forall_forall. intros xv Hin.
    pose proof (IH _ _ H) as Hall. rewrite Forall_forall in Hall.
    specialize (Hall xv Hin). unfold present in *.
    now rewrite <- (find_same_structure (fst xv) e1 e He).
Qed.

Lemma stamp_all_ok (l : list (xpath * string)) :
  forall e, Forall (fun xv => present (fst xv) e = true) l ->
            exists e', stamp_all l e = Ok e'.
Proof.
  induction l as [|[x v] l IH]; intros e Hall; cbn [stamp_all];
    [now exists e|].
  inversion Hall as [|? ? Hx Hl]; subst. cbn [fst] in Hx.
  unfold stamp at 1. unfold present in Hx.
  destruct (find x e) as [p|] eqn:Hp; [|discriminate]. cbn [bind].
  apply IH. apply Forall_forall. intros xv Hin.
  rewrite Forall_forall in Hl. specialize (Hl xv Hin). unfold present in *.
  now rewrite (find_same_structure (fst xv) _ e
                 (erase_update p _ e (erase_set_text v))).
Qed.

(** A chain leaves the text of every node that none of its lookups finds. *)
Lemma stamp_all_text_frame (l : list (xpath * string)) (q : path) :
  forall e e',
    stamp_all l e = Ok e' ->
    (forall x p, In x (map fst l) -> find x e = Some p -> q <> p) ->
    text_at q e' = text_at q e.
Proof.
  induction l as [|[x v] l IH]; intros e e'; cbn [stamp_all].
  - now intros [= <-].
  - destruct (stamp x v e) as [e1|] eqn:E; [|discriminate]. cbn [bind].
    intros H Hq. pose proof (stamp_erase _ _ _ _ E) as He.
    rewrite (IH _ _ H).
    + apply (stamp_text_other _ _ _ _ e q E eq_refl).
      intros p Hp. apply (Hq x p); [now left | exact Hp].
    + intros y p Hy Hp. apply (Hq y p); [now right|].
      now rewrite <- (find_same_structure y e1 e He).
Qed.

(** The text that a step of a chain assigns is there in the end, when no
    later step of the chain finds the same node. *)
Lemma stamp_all_text_set (l1 l2 : list (xpath * string)) (x : xpath)
  (v : string) (p : path) :
  forall e e',
    stamp_all (l1 ++ (x, v) :: l2)%list e = Ok e' ->
    find x e = Some p ->
    (forall y p', In y (map fst l2) -> find y e = Some p' -> p <> p') ->
    text_at p e' = Some (Some v).
Proof.
  intros e e' H Hp Hlater. rewrite stamp_all_app in H.
  destruct (stamp_all l1 e) as [e1|] eqn:E1; [|discriminate].
  cbn [bind stamp_all] in H.
  destruct (stamp x v e1) as [e2|] eqn:E2; [|discriminate]. cbn [bind] in H.
  pose proof (stamp_all_erase _ _ _ E1) as He1.
  pose proof (stamp_erase _ _ _ _ E2) as He2.
  rewrite (stamp_all_text_frame l2 p e2 e' H).
  - destruct (stamp_inv _ _ _ _ E2) as (p' & Hp' & ->).
    rewrite (find_same_structure x e1 e He1), Hp in Hp'. injection Hp' as <-.
    destruct (find_sound _ _ _ Hp) as (d & Hd & _).
    assert (Hd1 : exists d1, get p e1 = Some d1).
    { pose proof (get_erase p e1) as G1. pose proof (get_erase p e) as G.
      rewrite He1, G, Hd in G1. destruct (get p e1); [eauto | discriminate]. }
    destruct Hd1 as (d1 & Hd1). unfold text_at.
    now rewrite (get_update_same p _ e1 d1 Hd1).
  - intros y p' Hy Hp'. apply (Hlater y p' Hy).
    now rewrite <- (find_same_structure y e2 e (eq_trans He2 He1)).
Qed.

(** [stamp_header] and [fill_block] are such chains. *)
Lemma stamp_header_chain (args : Args) (now : datetime) (rnd : nat -> nat)
  (n : nat) (root : Element) :
  stamp_header args now rnd n root
  = (r <- stamp_all (header_stamps args now rnd n) root ;;
     Ok (r, createMsgId now rnd (id_prefix args) ++ "-1")).
Proof.
  unfold stamp_header, header_stamps. cbn [stamp_all].
  repeat match goal with
         | |- context [bind (stamp ?x ?v ?r) _] =>
             destruct (stamp x v r); cbn [bind]; [|reflexivity]
         end.
  reflexivity.
Qed.

Lemma fill_block_chain (id : string) (block : Element) (i : nat)
  (tx : Transaction) :
  fill_block id block i tx = stamp_all (block_stamps id i tx) block.
Proof.
  unfold fill_block, block_stamps. rewrite deepcopy_id. cbn [stamp_all].
  repeat match goal with
         | |- context [bind (stamp ?x ?v ?r) _] =>
             destruct (stamp x v r); cbn [bind]; [|reflexivity]
         end.
  reflexivity.
Qed.

End Chain.

(** ** When a run returns a document, and how it fails *)

Section Outcome.

Variables (args : Args) (now : datetime) (rnd : nat -> nat).

Lemma header_stamps_lookups (n : nat) :
  map fst (header_stamps args now rnd n) = header_lookups.
Proof. reflexivity. Qed.

Lemma block_stamps_lookups (id : string) (i : nat) (tx : Transaction) :
  map fst (block_stamps id i tx) = block_lookups.
Proof. reflexivity. Qed.

Lemma Forall_map_fst {A B : Type} (P : A -> Prop) (l : list (A * B)) :
  Forall (fun xv => P (fst xv)) l <-> Forall P (map fst l).
Proof. now rewrite Forall_map. Qed.

Lemma stamp_header_ok (n : nat) (template : Element) :
  Forall (fun x => present x template = true) header_lookups ->
  exists root1,
    stamp_header args now rnd n template
    = Ok (root1, createMsgId now rnd (id_prefix args) ++ "-1") /\
    erase root1 = erase template.
Proof.
  intros Hall. rewrite stamp_header_chain.
  destruct (stamp_all_ok (header_stamps args now rnd n) template)
    as (root1 & H1).
  { apply (proj2 (Forall_map_fst (fun x => present x template = true) _)).
    now rewrite header_stamps_lookups. }
  exists root1. rewrite H1. split; [reflexivity|].
  apply (stamp_all_erase _ _ _ H1).
Qed.

Lemma stamp_header_absent (n : nat) (template : Element) :
  Exists (fun x => present x template = false) header_lookups ->
  stamp_header args now rnd n template = Err AttributeError.
Proof.
  intros Hex. rewrite stamp_header_chain.
  destruct (stamp_all (header_stamps args now rnd n) template) as [r|ex] eqn:H.
  - apply stamp_all_present in H.
    apply (proj1 (Forall_map_fst (fun x => present x template = true) _)) in H.
    rewrite header_stamps_lookups in H.
    destruct (Forall_Exists_false _ _ H Hex).
  - cbn [bind]. now rewrite (stamp_all_err _ _ _ H).
Qed.

Lemma fill_block_ok (id : string) (block : Element) (i : nat)
  (tx : Transaction) :
  Forall (fun x => present x block = true) block_lookups ->
  exists b, fill_block id block i tx = Ok b.
Proof.
  intros Hall. rewrite fill_block_chain. apply stamp_all_ok.
  apply (proj2 (Forall_map_fst (fun x => present x block = true) _)).
  now rewrite block_stamps_lookups.
Qed.

Lemma add_transactions_ok (id : string) (block : Element) (pp : path) :
  Forall (fun x => present x block = true) block_lookups ->
  forall txs i root, exists out, add_transactions id block pp i txs root = Ok out.
Proof.
  intros Hall. induction txs as [|tx txs IH]; intros i root;
    cbn [add_transactions]; [now exists root|].
  destruct (fill_block_ok id block i tx Hall) as (b & ->). cbn [bind].
  apply IH.
Qed.

Lemma present_same_structure (x : xpath) (e e' : Element) :
  erase e = erase e' -> present x e = present x e'.
Proof. intros H. unfold present. now rewrite (find_same_structure x e e' H). Qed.

Lemma get_same_structure (q : path) (e e' : Element) (d : Element) :
  erase e = erase e' -> get q e = Some d ->
  exists d', get q e' = Some d' /\ erase d = erase d'.
Proof.
  intros He Hd. pose proof (get_erase q e) as G. pose proof (get_erase q e') as G'.
  rewrite He, G', Hd in G. destruct (get q e') as [d'|]; [|discriminate].
  exists d'. split; [reflexivity|]. cbn [option_map] in G. congruence.
Qed.

(** What is left of a run once the rows are read and the header is filled
    in. *)
Lemma process_xml_after_header (rows : list (list string))
  (template root1 : Element) :
  Forall (fun row => 5 <= List.length row) rows ->
  stamp_header args now rnd (List.length rows) template
  = Ok (root1, createMsgId now rnd (id_prefix args) ++ "-1") ->
  process_xml args now rnd rows template
  = (detached <- detach_block root1 ;;
     let '(root, pp, block) := detached in
     add_transactions (createMsgId now rnd (id_prefix args) ++ "-1") block pp 0
       (map (fun row => mkTransaction (nth 0 row "") (nth 1 row "")
                                      (nth 2 row "") (nth 4 row "")) rows)
       root).
Proof.
  intros Hlong Hhdr. unfold process_xml.
  rewrite (get_credit_transactions_ok rows Hlong). cbn [bind].
  now rewrite length_map, Hhdr.
Qed.

End Outcome.

(** X1. A run returns a document exactly when every row has at least five
    fields, every node that is looked up in the document is in the
    template, the transaction block found is a child of the payment
    information found, and, unless there is no row, every node that is
    looked up in the block is in the block of the template. *)
Theorem process_xml_returns_iff (args : Args) (now : datetime)
  (rnd : nat -> nat) (rows : list (list string)) (template : Element) :
  (exists out, process_xml args now rnd rows template = Ok out) <->
  Forall (fun row => 5 <= List.length row) rows /\
  Forall (fun x => present x template = true) document_lookups /\
  block_in_payment_information template = true /\
  (rows <> [] ->
   exists block0,
     template_block template = Some block0 /\
     Forall (fun x => present x block0 = true) block_lookups).
Proof.
  split.
  - intros [out Hrun].
    destruct (process_xml_ok_present _ _ _ _ _ _ Hrun) as (Hlong & Hdoc & Hblk).
    destruct (process_xml_inv _ _ _ _ _ _ Hrun)
      as (txs & root1 & pp & k & block & blocks & _ & Hhdr & Hpp & Hq & Hblock
          & _ & Hnth & _).
    destruct (stamp_header_inv _ _ _ _ _ _ _ Hhdr) as (_ & He & _).
    split; [exact Hlong|]. split; [exact Hdoc|]. split.
    + unfold block_in_payment_information.
      rewrite <- (find_same_structure _ root1 template He), Hpp.
      rewrite <- (find_same_structure _ root1 template He), Hq.
      now rewrite child_index_complete.
    + intros Hrows.
      destruct (run_block_template _ _ _ _ _ _ _ _ _ _ Hhdr Hq Hblock Hnth)
        as (block0 & Hb0 & _).
      exists block0. split; [exact Hb0 | now apply Hblk].
  - intros (Hlong & Hdoc & Hin & Hblk).
    unfold document_lookups in Hdoc. apply Forall_app in Hdoc.
    destruct Hdoc as [Hhead _].
    destruct (stamp_header_ok args now rnd (List.length rows) template Hhead)
      as (root1 & Hhdr & He).
    rewrite (process_xml_after_header _ _ _ _ _ _ Hlong Hhdr).
    unfold block_in_payment_information in Hin. unfold detach_block.
    rewrite (find_same_structure _ root1 template He).
    rewrite (find_same_structure (desc "CdtTrfTxInf") root1 template He).
    destruct (find (desc "PmtInf") template) as [pp|]; [|discriminate].
    destruct (find (desc "CdtTrfTxInf") template) as [q|] eqn:Hq;
      [|discriminate].
    destruct (child_index pp q) as [k|]; [|discriminate].
    destruct (find_sound _ _ _ Hq) as (block0 & Hb0 & _).
    destruct (get_same_structure q template root1 block0 (eq_sym He) Hb0)
      as (block & Hb & Heb).
    rewrite Hb. cbn [bind].
    destruct rows as [|row rows]; [now eexists|].
    destruct Hblk as (block0' & Hb0' & Hall); [discriminate|].
    unfold template_block in Hb0'. rewrite Hq, Hb0 in Hb0'.
    injection Hb0' as <-.
    apply add_transactions_ok. apply Forall_forall. intros x Hx.
    rewrite Forall_forall in Hall.
    now rewrite <- (present_same_structure x block0 block Heb), (Hall x Hx).
Qed.

(** X2. When every row has at least five fields and the template lacks one
    of the nine header, party and debtor nodes, the run raises an
    [AttributeError]: the assignment to the text of [None]. *)
Theorem missing_header_node_error (args : Args) (now : datetime)
  (rnd : nat -> nat) (rows : list (list string)) (template : Element) :
  Forall (fun row => 5 <= List.length row) rows ->
  Exists (fun x => present x template = false) header_lookups ->
  process_xml args now rnd rows template = Err AttributeError.
Proof.
  intros Hlong Habs. unfold process_xml.
  rewrite (get_credit_transactions_ok rows Hlong). cbn [bind].
  now rewrite (stamp_header_absent args now rnd _ template Habs).
Qed.

(** X3. With the header in place, a template without payment information
    makes the run raise an [AttributeError] ([None] has no [remove]), and a
    template with a payment information and no transaction block a
    [TypeError] ([remove] wants an element). *)
Theorem missing_block_or_parent_error (args : Args) (now : datetime)
  (rnd : nat -> nat) (rows : list (list string)) (template : Element) :
  Forall (fun row => 5 <= List.length row) rows ->
  Forall (fun x => present x template = true) header_lookups ->
  (present (desc "PmtInf") template = false ->
   process_xml args now rnd rows template = Err AttributeError) /\
  (present (desc "PmtInf") template = true ->
   present (desc "CdtTrfTxInf") template = false ->
   process_xml args now rnd rows template = Err TypeError).
Proof.
  intros Hlong Hhead.
  destruct (stamp_header_ok args now rnd (List.length rows) template Hhead)
    as (root1 & Hhdr & He).
  rewrite (process_xml_after_header _ _ _ _ _ _ Hlong Hhdr).
  unfold detach_block, present.
  rewrite (find_same_structure _ root1 template He).
  rewrite (find_same_structure (desc "CdtTrfTxInf") root1 template He).
  destruct (find (desc "PmtInf") template);
    destruct (find (desc "CdtTrfTxInf") template); split; intros;
    try discriminate; reflexivity.
Qed.

(** X4. With the header in place, a transaction block that is not a child
    of the payment information (the first one of each in document order)
    makes the run raise a [ValueError]: the block is not in the list of
    children that [remove] searches. *)
Theorem block_not_child_error (args : Args) (now : datetime)
  (rnd : nat -> nat) (rows : list (list string)) (template : Element) :
  Forall (fun row => 5 <= List.length row) rows ->
  Forall (fun x => present x template = true) document_lookups ->
  block_in_payment_information template = false ->
  process_xml args now rnd rows template = Err ValueError.
Proof.
  intros Hlong Hdoc Hin. unfold document_lookups in Hdoc.
  apply Forall_app in Hdoc. destruct Hdoc as [Hhead Hrest].
  inversion Hrest as [|? ? Hcdt Hrest']; subst.
  inversion Hrest' as [|? ? Hpmt _]; subst.
  destruct (stamp_header_ok args now rnd (List.length rows) template Hhead)
    as (root1 & Hhdr & He).
  rewrite (process_xml_after_header _ _ _ _ _ _ Hlong Hhdr).
  unfold detach_block, block_in_payment_information, present in *.
  rewrite (find_same_structure _ root1 template He).
  rewrite (find_same_structure (desc "CdtTrfTxInf") root1 template He).
  destruct (find (desc "PmtInf") template) as [pp|]; [|discriminate].
  destruct (find (desc "CdtTrfTxInf") template) as [q|]; [|discriminate].
  now destruct (child_index pp q).
Qed.

(** X5. With the header in place and the block taken out, a node that is
    looked up in the block and is not in it makes the run raise an
    [AttributeError] as soon as there is one row. *)
Theorem missing_block_node_error (args : Args) (now : datetime)
  (rnd : nat -> nat) (rows : list (list string)) (template block0 : Element) :
  Forall (fun row => 5 <= List.length row) rows ->
  rows <> [] ->
  Forall (fun x => present x template = true) document_lookups ->
  block_in_payment_information template = true ->
  template_block template = Some block0 ->
  Exists (fun x => present x block0 = false) block_lookups ->
  process_xml args now rnd rows template = Err AttributeError.
Proof.
  intros Hlong Hrows Hdoc Hin Hb0 Habs. unfold document_lookups in Hdoc.
  apply Forall_app in Hdoc. destruct Hdoc as [Hhead _].
  destruct (stamp_header_ok args now rnd (List.length rows) template Hhead)
    as (root1 & Hhdr & He).
  rewrite (process_xml_after_header _ _ _ _ _ _ Hlong Hhdr).
  unfold detach_block, block_in_payment_information, template_block in *.
  rewrite (find_same_structure _ root1 template He).
  rewrite (find_same_structure (desc "CdtTrfTxInf") root1 template He).
  destruct (find (desc "PmtInf") template) as [pp|]; [|discriminate].
  destruct (find (desc "CdtTrfTxInf") template) as [q|]; [|discriminate].
  destruct (child_index pp q) as [k|]; [|discriminate].
  destruct (get_same_structure q template root1 block0 (eq_sym He) Hb0)
    as (block & Hb & Heb).
  rewrite Hb. cbn [bind].
  destruct rows as [|row rows]; [congruence|]. cbn [map].
  apply add_transactions_absent.
  apply Exists_exists in Habs. destruct Habs as (x & Hx & Hax).
  apply Exists_exists. exists x. split; [exact Hx|].
  now rewrite <- (present_same_structure x block0 block Heb).
Qed.

(** ** The structure and the untouched text of the document *)

Section Structure.

Lemma map_erase_list_update (g g' : Element -> Element) (i : nat)
  (l : list Element) :
  (forall x, erase (g x) = g' (erase x)) ->
  map erase (list_update i g l) = list_update i g' (map erase l).
Proof.
  intros H. revert i. induction l as [|x l IH]; intros [|i]; cbn;
    try reflexivity; [now rewrite H | now rewrite IH].
Qed.

(** Erasing the text after a change of one node is the change, on the
    erased tree, by a function that [erase] carries the first one to. *)
Lemma erase_update_commute (p : path) (f f' : Element -> Element) :
  (forall x, erase (f x) = f' (erase x)) ->
  forall e, erase (update p f e) = update p f' (erase e).
Proof.
  intros H. induction p as [|i p IH]; intros e; cbn [update]; [apply H|].
  rewrite erase_with_children, children_erase.
  now rewrite (map_erase_list_update _ _ i _ IH).
Qed.

Lemma map_remove_nth {A B : Type} (f : A -> B) (k : nat) (l : list A) :
  map f (remove_nth k l) = remove_nth k (map f l).
Proof. unfold remove_nth. now rewrite map_app, firstn_map, skipn_map. Qed.

Lemma all_equal_repeat {A : Type} (a : A) (l : list A) :
  (forall x, In x l -> x = a) -> l = repeat a (List.length l).
Proof.
  induction l as [|x l IH]; intros H; cbn [repeat List.length]; [reflexivity|].
  rewrite <- IH by (intros y Hy; apply H; now right).
  now rewrite (H x (or_introl eq_refl)).
Qed.

Lemma stamp_header_all_inv (args : Args) (now : datetime) (rnd : nat -> nat)
  (n : nat) (root root1 : Element) (id : string) :
  stamp_header args now rnd n root = Ok (root1, id) ->
  stamp_all (header_stamps args now rnd n) root = Ok root1.
Proof.
  rewrite stamp_header_chain.
  destruct (stamp_all (header_stamps args now rnd n) root); [|discriminate].
  now intros [= -> _].
Qed.

End Structure.

(** X6. The structure of the document that a run returns is the structure
    of the template in which the transaction block is taken out of the
    payment information and as many copies of it as there are rows are put
    behind the children that the payment information keeps: nothing else
    of the elements, their order, tags, attributes and tails changes. *)
Theorem document_structure (args : Args) (now : datetime) (rnd : nat -> nat)
  (rows : list (list string)) (template out : Element) :
  process_xml args now rnd rows template = Ok out ->
  exists pp k block0,
    find (desc "PmtInf") template = Some pp /\
    find (desc "CdtTrfTxInf") template = Some (pp ++ [k])%list /\
    get (pp ++ [k])%list template = Some block0 /\
    erase out
    = update pp
        (edit_children
           (fun cs => remove_nth k cs
                      ++ repeat (erase block0) (List.length rows))%list)
        (erase template).
Proof.
  intros Hrun.
  destruct (process_xml_inv _ _ _ _ _ _ Hrun)
    as (txs & root1 & pp & k & block & blocks & Htxs & Hhdr & Hpp & Hq & Hblock
        & Hlen & Hnth & Hout).
  destruct (stamp_header_inv _ _ _ _ _ _ _ Hhdr) as (_ & He & _).
  destruct (get_same_structure _ root1 template block He Hblock)
    as (block0 & Hb0 & Heb).
  exists pp, k, block0.
  rewrite <- (find_same_structure _ root1 template He).
  rewrite <- (find_same_structure (desc "CdtTrfTxInf") root1 template He).
  split; [exact Hpp|]. split; [exact Hq|]. split; [exact Hb0|].
  assert (Hrows : List.length txs = List.length rows).
  { rewrite (get_credit_transactions_ok rows) in Htxs
      by apply (get_credit_transactions_inv rows txs Htxs).
    injection Htxs as <-. apply length_map. }
  assert (Hblocks : map erase blocks = repeat (erase block0) (List.length rows)).
  { rewrite <- Hrows, <- Hlen, <- (length_map erase blocks).
    apply all_equal_repeat. intros x Hx. apply in_map_iff in Hx.
    destruct Hx as (b & <- & Hb).
    destruct (run_blocks_filled _ _ _ _ _ _ Hlen Hnth b Hb)
      as (n & tx & _ & _ & Hfill).
    destruct (fill_block_inv _ _ _ _ _ Hfill) as (Hebl & _). congruence. }
  rewrite Hout, <- He, <- Hblocks. apply erase_update_commute.
  intros x. unfold edit_children.
  now rewrite erase_with_children, children_erase, map_app, map_remove_nth.
Qed.

(** X7. The text of a node that comes before the transaction block in
    document order and is none of the nine nodes that the header lookups
    find is in the document what it is in the template. *)
Theorem other_text_kept (args : Args) (now : datetime) (rnd : nat -> nat)
  (rows : list (list string)) (template out : Element) (q p : path) :
  process_xml args now rnd rows template = Ok out ->
  find (desc "CdtTrfTxInf") template = Some q ->
  precedes p q = true ->
  (forall x p', In x header_lookups -> find x template = Some p' -> p <> p') ->
  text_at p out = text_at p template.
Proof.
  intros Hrun Hq0 Hprec Hother.
  destruct (process_xml_inv _ _ _ _ _ _ Hrun)
    as (txs & root1 & pp & k & block & blocks & _ & Hhdr & Hpp & Hq & Hblock
        & _ & _ & Hout).
  destruct (stamp_header_inv _ _ _ _ _ _ _ Hhdr) as (_ & He & _).
  rewrite <- (find_same_structure _ root1 template He), Hq in Hq0.
  injection Hq0 as <-.
  rewrite Hout, (text_at_edit _ k pp root1 p Hprec).
  - apply (stamp_all_text_frame _ _ _ _ (stamp_header_all_inv _ _ _ _ _ _ _ Hhdr)).
    now rewrite header_stamps_lookups.
  - intros par Hpar.
    apply (run_firstn root1 block blocks pp k Hblock par Hpar).
Qed.

(** ** The failures and the structure on the sample templates *)

Lemma sample_rows_long : Forall (fun row => 5 <= List.length row) sample_rows.
Proof. repeat constructor. Qed.

Lemma missing_header_node_error_witness :
  process_xml sample_args sample_now sample_rnd sample_rows
    template_without_count = Err AttributeError.
Proof.
  apply (missing_header_node_error sample_args sample_now sample_rnd
           sample_rows template_without_count sample_rows_long).
  apply Exists_exists. exists (desc "NbOfTxs").
  split; [cbn; tauto | vm_compute; reflexivity].
Defined.

Lemma missing_block_or_parent_error_witness :
  (present (desc "PmtInf") template_without_block = false ->
   process_xml sample_args sample_now sample_rnd sample_rows
     template_without_block = Err AttributeError) /\
  (present (desc "PmtInf") template_without_block = true ->
   present (desc "CdtTrfTxInf") template_without_block = false ->
   process_xml sample_args sample_now sample_rnd sample_rows
     template_without_block = Err TypeError).
Proof.
  apply (missing_block_or_parent_error sample_args sample_now sample_rnd
           sample_rows template_without_block sample_rows_long).
  repeat constructor.
Defined.

Lemma block_not_child_error_witness :
  process_xml sample_args sample_now sample_rnd sample_rows
    template_nested_block = Err ValueError.
Proof.
  apply (block_not_child_error sample_args sample_now sample_rnd sample_rows
           template_nested_block sample_rows_long);
    [repeat constructor | vm_compute; reflexivity].
Defined.

Lemma missing_block_node_error_witness :
  process_xml sample_args sample_now sample_rnd sample_rows
    template_without_ustrd = Err AttributeError.
Proof.
  apply (missing_block_node_error sample_args sample_now sample_rnd sample_rows
           template_without_ustrd block_without_ustrd sample_rows_long);
    [discriminate | repeat constructor | vm_compute; reflexivity
    | vm_compute; reflexivity |].
  apply Exists_exists. exists (desc "Ustrd").
  split; [cbn; tauto | vm_compute; reflexivity].
Defined.

Lemma document_structure_witness :
  exists pp k block0,
    find (desc "PmtInf") sample_template = Some pp /\
    find (desc "CdtTrfTxInf") sample_template = Some (pp ++ [k])%list /\
    get (pp ++ [k])%list sample_template = Some block0 /\
    erase sample_out
    = update pp
        (edit_children
           (fun cs => remove_nth k cs
                      ++ repeat (erase block0) (List.length sample_rows))%list)
        (erase sample_template).
Proof.
  apply (document_structure sample_args sample_now sample_rnd sample_rows
           sample_template sample_out sample_run).
Defined.

Lemma other_text_kept_witness :
  text_at [0; 1; 1] sample_out = text_at [0; 1; 1] sample_template.
Proof.
  apply (other_text_kept sample_args sample_now sample_rnd sample_rows
           sample_template sample_out [0; 1; 6] [0; 1; 1] sample_run);
    [vm_compute; reflexivity | reflexivity |].
  intros x p' Hx Hf. cbn [header_lookups In] in Hx.
  repeat (destruct Hx as [<-|Hx]); try contradiction;
    vm_compute in Hf; congruence.
Defined.

(** ** The party and the debtor *)

Section Fields.

(** The node that [.//A/B] finds is a child of a node with tag [A]. *)
Lemma find_child_parent (a b : string) (e : Element) (p : path) :
  find (Descendant a [b]) e = Some p ->
  exists p0 i d0, p = (p0 ++ [i])%list /\ get p0 e = Some d0 /\ tag d0 = a.
Proof.
  unfold find, findall. cbn [fold_left].
  destruct (select_child b (select_descendant a [([], e)])) as [|[p' d] l]
    eqn:Hsel; [discriminate|].
  cbn [map head fst]. intros [= <-].
  assert (Hin : In (p', d) (select_child b (select_descendant a [([], e)])))
    by (rewrite Hsel; now left).
  unfold select_child in Hin. apply in_flat_map in Hin.
  destruct Hin as ([p0 d0] & Hin0 & H). cbn [fst snd] in H.
  apply In_indexed in H. destruct H as (k & c & Hk & H).
  destruct (tag c =? b)%string; [|contradiction].
  destruct H as [H|[]]. inversion H; subst.
  exists p0, (0 + k), d0. split; [reflexivity|].
  apply (findall_sound (Descendant a []) e p0 d0 Hin0).
Qed.

(** Two lookups whose paths end in different tags find different nodes. *)
Lemma find_distinct_tags (x y : xpath) (e : Element) (p p' : path) :
  final_tag x <> final_tag y ->
  find x e = Some p -> find y e = Some p' -> p <> p'.
Proof.
  intros Hne Hp Hp' <-. destruct (find_sound _ _ _ Hp) as (d & Hd & Ht).
  destruct (find_sound _ _ _ Hp') as (d' & Hd' & Ht').
  rewrite Hd in Hd'. injection Hd' as <-. congruence.
Qed.

(** So do [.//A/B] and [.//A'/B'] when [A] and [A'] differ. *)
Lemma find_distinct_parents (a a' b b' : string) (e : Element) (p p' : path) :
  a <> a' ->
  find (Descendant a [b]) e = Some p -> find (Descendant a' [b']) e = Some p' ->
  p <> p'.
Proof.
  intros Hne Hp Hp' <-.
  destruct (find_child_parent _ _ _ _ Hp) as (p0 & i & d0 & -> & Hd & Ht).
  destruct (find_child_parent _ _ _ _ Hp') as (p1 & j & d1 & Heq & Hd1 & Ht1).
  apply app_inj_tail in Heq. destruct Heq as [<- _].
  rewrite Hd in Hd1. injection Hd1 as <-. congruence.
Qed.

Lemma get_credit_transactions_length (rows : list (list string))
  (txs : list Transaction) :
  get_credit_transactions rows = Ok txs -> List.length txs = List.length rows.
Proof.
  intros Htxs.
  rewrite (get_credit_transactions_ok rows) in Htxs
    by apply (get_credit_transactions_inv rows txs Htxs).
  injection Htxs as <-. apply length_map.
Qed.

(** The text that a header step assigns to a node before the transaction
    block is the text of that node in the document, when no later header
    step finds the same node. *)
Lemma header_node_text (args : Args) (now : datetime) (rnd : nat -> nat)
  (rows : list (list string)) (template out : Element)
  (l1 l2 : list (xpath * string)) (x : xpath) (v : string) :
  process_xml args now rnd rows template = Ok out ->
  header_stamps args now rnd (List.length rows) = (l1 ++ (x, v) :: l2)%list ->
  (forall y p p', In y (map fst l2) -> find x template = Some p ->
                  find y template = Some p' -> p <> p') ->
  lookup_before_block x template = true ->
  node_text x template out = Some v.
Proof.
  intros Hrun Hsplit Hlater Hbefore.
  destruct (process_xml_inv _ _ _ _ _ _ Hrun)
    as (txs & root1 & pp & k & block & blocks & Htxs & Hhdr & Hpp & Hq & Hblock
        & _ & _ & Hout).
  destruct (stamp_header_inv _ _ _ _ _ _ _ Hhdr) as (_ & He & _).
  pose proof (stamp_header_all_inv _ _ _ _ _ _ _ Hhdr) as Hall.
  rewrite (get_credit_transactions_length rows txs Htxs), Hsplit in Hall.
  unfold lookup_before_block in Hbefore.
  destruct (find x template) as [p|] eqn:Hp; [|discriminate].
  rewrite <- (find_same_structure (desc "CdtTrfTxInf") root1 template He), Hq
    in Hbefore.
  pose proof (stamp_all_text_set l1 l2 x v p template root1 Hall Hp
                (fun y p' Hy Hp' => Hlater y p p' Hy eq_refl Hp')) as Htext.
  assert (Hin : text_at p out = Some (Some v)).
  { rewrite Hout, (text_at_edit _ k pp root1 p Hbefore); [exact Htext|].
    intros par Hpar. apply (run_firstn root1 block blocks pp k Hblock par Hpar). }
  unfold node_text. rewrite Hp. unfold text_at in Hin.
  destruct (get p out) as [d|]; cbn [option_map] in Hin;
    [now injection Hin | discriminate].
Qed.

End Fields.

Ltac later_steps :=
  let y := fresh "y" in
  let p := fresh "p" in
  let p' := fresh "p'" in
  let Hy := fresh "Hy" in
  let Hp := fresh "Hp" in
  let Hp' := fresh "Hp'" in
  intros y p p' Hy Hp Hp'; cbn [header_stamps skipn map fst In] in Hy;
  repeat (destruct Hy as [<-|Hy]); try contradiction;
  first [ refine (find_distinct_tags _ _ _ _ _ _ Hp Hp');
          vm_compute; discriminate
        | refine (find_distinct_parents _ _ _ _ _ _ _ _ Hp Hp');
          vm_compute; discriminate ].

(** X8. The names of the initiating party and of the debtor, the debtor's
    account and the debtor's bank code of the command line are the texts,
    in the document, of the nodes that the four lookups find, when these
    nodes come before the transaction block in the template. *)
Theorem party_and_debtor_fields (args : Args) (now : datetime)
  (rnd : nat -> nat) (rows : list (list string)) (template out : Element) :
  process_xml args now rnd rows template = Ok out ->
  Forall (fun x => lookup_before_block x template = true)
         [desc_path "InitgPty" ["Nm"]; desc_path "Dbtr" ["Nm"];
          desc_path "DbtrAcct" ["Id"; "IBAN"];
          desc_path "DbtrAgt" ["FinInstnId"; "BIC"]] ->
  node_text (desc_path "InitgPty" ["Nm"]) template out
  = Some (initiating_party args) /\
  node_text (desc_path "Dbtr" ["Nm"]) template out = Some (debtor_name args) /\
  node_text (desc_path "DbtrAcct" ["Id"; "IBAN"]) template out
  = Some (debtor_account args) /\
  node_text (desc_path "DbtrAgt" ["FinInstnId"; "BIC"]) template out
  = Some (debtor_bic args).
Proof.
  intros Hrun Hbefore.
  inversion Hbefore as [|? ? H1 Hb1]; subst.
  inversion Hb1 as [|? ? H2 Hb2]; subst.
  inversion Hb2 as [|? ? H3 Hb3]; subst.
  inversion Hb3 as [|? ? H4 _]; subst.
  repeat split.
  - apply (header_node_text args now rnd rows template out
             (firstn 3 (header_stamps args now rnd (List.length rows)))
             (skipn 4 (header_stamps args now rnd (List.length rows)))
             _ _ Hrun eq_refl); [later_steps | exact H1].
  - apply (header_node_text args now rnd rows template out
             (firstn 6 (header_stamps args now rnd (List.length rows)))
             (skipn 7 (header_stamps args now rnd (List.length rows)))
             _ _ Hrun eq_refl); [later_steps | exact H2].
  - apply (header_node_text args now rnd rows template out
             (firstn 7 (header_stamps args now rnd (List.length rows)))
             (skipn 8 (header_stamps args now rnd (List.length rows)))
             _ _ Hrun eq_refl); [later_steps | exact H3].
  - apply (header_node_text args now rnd rows template out
             (firstn 8 (header_stamps args now rnd (List.length rows)))
             (skipn 9 (header_stamps args now rnd (List.length rows)))
             _ _ Hrun eq_refl); [later_steps | exact H4].
Qed.

Lemma party_and_debtor_fields_witness :
  node_text (desc_path "InitgPty" ["Nm"]) sample_template sample_out
  = Some "ACME" /\
  node_text (desc_path "Dbtr" ["Nm"]) sample_template sample_out
  = Some "ACME BV" /\
  node_text (desc_path "DbtrAcct" ["Id"; "IBAN"]) sample_template sample_out
  = Some "NL00RABO0000000001" /\
  node_text (desc_path "DbtrAgt" ["FinInstnId"; "BIC"]) sample_template
    sample_out = Some "RABONL2U".
Proof.
  apply (party_and_debtor_fields sample_args sample_now sample_rnd sample_rows
           sample_template sample_out sample_run).
  repeat constructor.
Defined.

(** ** The identifiers of the transactions *)

Section Identifiers.

Lemma append_inj_l (s a b : string) : (s ++ a = s ++ b)%string -> a = b.
Proof.
  induction s as [|c s IH]; cbn [append]; [auto | intros [= H]; auto].
Qed.

Lemma decimal_value_zeros (k : nat) (s : string) :
  Spec.decimal_value (Py.repeat_char "0" k ++ s) = Spec.decimal_value s.
Proof.
  induction k as [|k IH]; [reflexivity|].
  cbn [Py.repeat_char append]. unfold Spec.decimal_value in *.
  cbn [list_ascii_of_string fold_left]. exact IH.
Qed.

(** The padded index has the value of the index: no two indices are padded
    to the same text. *)
Lemma decimal_value_left_pad (w n : nat) :
  Spec.decimal_value (Spec.left_pad_zero w (Py.str n)) = n.
Proof.
  unfold Spec.left_pad_zero. now rewrite decimal_value_zeros, decimal_value_str.
Qed.

Lemma length_left_pad_str (n : nat) :
  (n < 10 ^ 4 -> String.length (Spec.left_pad_zero 4 (Py.str n)) = 4) /\
  (10 ^ 4 <= n -> 4 < String.length (Spec.left_pad_zero 4 (Py.str n))).
Proof.
  split; intros Hn.
  - change (Spec.left_pad_zero 4 (Py.str n)) with (Py.format_0d 4 n).
    rewrite (format_0d_zero_padded 4 n) by (lia || exact Hn).
    apply length_zero_padded.
  - unfold Spec.left_pad_zero. rewrite length_append, length_repeat_char.
    pose proof (str_length_lower 5 n) as H. change (5 - 1) with 4 in H.
    specialize (H ltac:(lia) Hn). lia.
Qed.

Lemma length_createMsgId (now : datetime) (rnd : nat -> nat) (prefix : string) :
  valid_datetime now -> four_digit_year now ->
  String.length (createMsgId now rnd prefix) = 28.
Proof.
  intros Hv H4. unfold createMsgId.
  now rewrite !length_append, length_normalize_prefix,
    (length_timestamp_segment now Hv H4), length_random_suffix.
Qed.

(** The block at position [i] among the transaction blocks of the document
    belongs to row [i] and carries the identifier made for it. *)
Lemma block_end_to_end_id (args : Args) (now : datetime) (rnd : nat -> nat)
  (rows : list (list string)) (template out : Element) :
  process_xml args now rnd rows template = Ok out ->
  one_block template = true ->
  forall i b,
    nth_error (transaction_blocks out) i = Some b ->
    i < List.length rows /\
    field (desc "EndToEndId") b
    = Some ((createMsgId now rnd (id_prefix args) ++ "-1") ++ "-" ++
            Spec.left_pad_zero 4 (Py.str i)).
Proof.
  intros Hrun Hone i b Hi.
  destruct (process_xml_inv _ _ _ _ _ _ Hrun)
    as (txs & root1 & pp & k & block & blocks & Htxs & Hhdr & Hpp & Hq & Hblock
        & Hlen & Hnth & Hout).
  rewrite (run_transaction_blocks _ _ _ _ _ _ _ _ _ _ _ Hhdr Hpp Hq Hblock
             Hlen Hnth Hout Hone) in Hi.
  assert (Hlt : i < List.length txs).
  { rewrite <- Hlen. apply nth_error_Some. congruence. }
  split; [now rewrite <- (get_credit_transactions_length rows txs Htxs)|].
  destruct (nth_error txs i) as [tx|] eqn:Htx;
    [|apply nth_error_None in Htx; lia].
  destruct (Hnth i tx Htx) as (b' & Hb' & Hfill).
  rewrite Hi in Hb'. injection Hb' as <-.
  now destruct (fill_block_inv _ _ _ _ _ Hfill) as (_ & _ & He2e & _).
Qed.

End Identifiers.

(** X9. Two transaction blocks at different positions of a document carry
    different end-to-end identifiers, however many rows there are: the
    identifiers differ in the index behind the last dash. *)
Theorem end_to_end_ids_distinct (args : Args) (now : datetime)
  (rnd : nat -> nat) (rows : list (list string)) (template out : Element) :
  process_xml args now rnd rows template = Ok out ->
  one_block template = true ->
  forall i j bi bj,
    nth_error (transaction_blocks out) i = Some bi ->
    nth_error (transaction_blocks out) j = Some bj ->
    i <> j ->
    field (desc "EndToEndId") bi <> field (desc "EndToEndId") bj.
Proof.
  intros Hrun Hone i j bi bj Hi Hj Hij Heq. apply Hij.
  destruct (block_end_to_end_id _ _ _ _ _ _ Hrun Hone i bi Hi) as (_ & Hbi).
  destruct (block_end_to_end_id _ _ _ _ _ _ Hrun Hone j bj Hj) as (_ & Hbj).
  rewrite Hbi, Hbj in Heq. injection Heq as Heq.
  apply append_inj_l in Heq. cbn [append] in Heq. injection Heq as Heq.
  apply (f_equal Spec.decimal_value) in Heq.
  now rewrite !decimal_value_left_pad in Heq.
Qed.

Lemma end_to_end_ids_distinct_witness :
  0 <> 1 /\
  field (desc "EndToEndId") (nth 0 (transaction_blocks sample_out) sample_block)
  <> field (desc "EndToEndId")
       (nth 1 (transaction_blocks sample_out) sample_block).
Proof.
  split; [discriminate|].
  apply (end_to_end_ids_distinct sample_args sample_now sample_rnd sample_rows
           sample_template sample_out sample_run eq_refl 0 1);
    [vm_compute; reflexivity | vm_compute; reflexivity | discriminate].
Defined.

(** X10. The payment information identifier is 30 characters long. The
    end-to-end identifier of a transaction block is 35 characters long for
    the first ten thousand rows and longer than 35 characters from row
    10000 on, where the index has more than four digits. *)
Theorem identifier_lengths (args : Args) (now : datetime) (rnd : nat -> nat)
  (rows : list (list string)) (template out : Element) :
  process_xml args now rnd rows template = Ok out ->
  one_block template = true ->
  valid_datetime now -> four_digit_year now ->
  String.length (createMsgId now rnd (id_prefix args) ++ "-1") = 30 /\
  forall i b,
    nth_error (transaction_blocks out) i = Some b ->
    exists s,
      field (desc "EndToEndId") b = Some s /\
      (i < 10 ^ 4 -> String.length s = 35) /\
      (10 ^ 4 <= i -> 35 < String.length s).
Proof.
  intros Hrun Hone Hv H4.
  assert (H30 : String.length (createMsgId now rnd (id_prefix args) ++ "-1")
                = 30).
  { rewrite length_append, (length_createMsgId now rnd _ Hv H4). reflexivity. }
  split; [exact H30|]. intros i b Hi.
  destruct (block_end_to_end_id _ _ _ _ _ _ Hrun Hone i b Hi) as (_ & Hb).
  eexists. split; [exact Hb|].
  rewrite (length_append (createMsgId now rnd (id_prefix args) ++ "-1")), H30,
    length_append. cbn [String.length].
  destruct (length_left_pad_str i) as [Hlo Hhi].
  split; intros Hn; [rewrite (Hlo Hn); reflexivity | specialize (Hhi Hn); lia].
Qed.

Lemma identifier_lengths_witness :
  String.length (createMsgId sample_now sample_rnd (id_prefix sample_args)
                 ++ "-1") = 30 /\
  forall i b,
    nth_error (transaction_blocks sample_out) i = Some b ->
    exists s,
      field (desc "EndToEndId") b = Some s /\
      (i < 10 ^ 4 -> String.length s = 35) /\
      (10 ^ 4 <= i -> 35 < String.length s).
Proof.
  apply (identifier_lengths sample_args sample_now sample_rnd sample_rows
           sample_template sample_out sample_run);
    [vm_compute; reflexivity | apply sample_now_valid | apply sample_now_valid].
Defined.

(** X11. The run takes one transaction block out of the payment
    information, the first one, and adds one per row: a document made from
    a template with several blocks keeps the others, so that it has one
    block less than the template and the rows have together. *)
Theorem blocks_of_any_template (args : Args) (now : datetime)
  (rnd : nat -> nat) (rows : list (list string)) (template out : Element) :
  process_xml args now rnd rows template = Ok out ->
  List.length (transaction_blocks out) + 1
  = List.length (transaction_blocks template) + List.length rows.
Proof.
  intros Hrun.
  destruct (process_xml_inv _ _ _ _ _ _ Hrun)
    as (txs & root1 & pp & k & block & blocks & Htxs & Hhdr & Hpp & Hq & Hblock
        & Hlen & Hnth & Hout).
  destruct (stamp_header_inv _ _ _ _ _ _ _ Hhdr) as (_ & He & _).
  destruct (run_payment_information _ _ _ _ _ _ Hpp Hq Hblock Hout)
    as (par & Hpar & Hk & Hpay).
  unfold transaction_blocks at 1. rewrite Hpay. cbn [children with_children].
  rewrite filter_app, length_app.
  rewrite (filter_all _ _ (run_blocks_tag _ _ _ _ _ _ _ _ _ Hq Hblock Hlen Hnth)).
  pose proof (filter_remove_nth is_block k (children par) block Hk
                (run_block_tag _ _ _ _ Hq Hblock)) as Hcount.
  destruct (get_same_structure pp root1 template par He Hpar)
    as (par0 & Hpar0 & Hepar).
  unfold transaction_blocks, payment_information.
  rewrite <- (find_same_structure (desc "PmtInf") root1 template He), Hpp, Hpar0.
  assert (Hsame : map erase (children par) = map erase (children par0))
    by now rewrite <- !children_erase, Hepar.
  rewrite <- (filter_is_block_erase _ _ Hsame), Hlen,
    (get_credit_transactions_length rows txs Htxs).
  lia.
Qed.

Lemma blocks_of_any_template_witness :
  List.length (transaction_blocks two_blocks_out) + 1
  = List.length (transaction_blocks template_two_blocks)
    + List.length sample_rows.
Proof.
  apply (blocks_of_any_template sample_args sample_now sample_rnd sample_rows
           template_two_blocks two_blocks_out).
  vm_compute. reflexivity.
Defined.

(** ** The prefix and the rows, as far as they are read *)

Section Read.

Lemma substring_append_long (n : nat) (s t : string) :
  n <= String.length s -> substring 0 n (s ++ t) = substring 0 n s.
Proof.
  revert n. induction s as [|c s IH]; intros [|n] H; cbn [String.length] in H;
    try lia.
  - now destruct t.
  - reflexivity.
  - cbn [append substring]. rewrite IH by lia. reflexivity.
Qed.

Lemma normalize_prefix_idempotent (prefix : string) :
  normalize_prefix (normalize_prefix prefix) = normalize_prefix prefix.
Proof.
  pose proof (length_normalize_prefix prefix) as H.
  unfold normalize_prefix at 1. rewrite H. cbn [Nat.ltb Nat.leb].
  apply substring_whole. lia.
Qed.

Lemma normalize_prefix_cut (prefix extra : string) :
  4 < String.length prefix ->
  normalize_prefix (prefix ++ extra) = normalize_prefix prefix.
Proof.
  intros H. unfold normalize_prefix. rewrite length_append.
  destruct (Nat.ltb_spec 4 (String.length prefix + String.length extra));
    [|lia].
  destruct (Nat.ltb_spec 4 (String.length prefix)); [|lia].
  apply substring_append_long. lia.
Qed.

Lemma transaction_of_row_same (row row' : list string) :
  same_fields_read row row' -> transaction_of_row row = transaction_of_row row'.
Proof.
  intros (H0 & H1 & H2 & H4). unfold transaction_of_row.
  now rewrite H0, H1, H2, H4.
Qed.

Lemma get_credit_transactions_same (rows rows' : list (list string)) :
  Forall2 same_fields_read rows rows' ->
  get_credit_transactions rows = get_credit_transactions rows'.
Proof.
  induction 1 as [|row row' rows rows' Hrow _ IH];
    cbn [get_credit_transactions]; [reflexivity|].
  now rewrite (transaction_of_row_same row row' Hrow), IH.
Qed.

End Read.

(** X12. The message identifier depends on the prefix through its five
    characters only: a prefix that is normalized beforehand gives the same
    identifier, and so does a prefix of five or more characters with
    anything added behind it. *)
Theorem createMsgId_prefix_five_only (now : datetime) (rnd : nat -> nat)
  (prefix : string) :
  createMsgId now rnd (normalize_prefix prefix) = createMsgId now rnd prefix /\
  (4 < String.length prefix ->
   forall extra,
     createMsgId now rnd (prefix ++ extra) = createMsgId now rnd prefix).
Proof.
  unfold createMsgId. split.
  - now rewrite normalize_prefix_idempotent.
  - intros H extra. now rewrite (normalize_prefix_cut prefix extra H).
Qed.

(** X13. The reader works row by row: what it gives for two inputs one
    after the other is what it gives for the first followed by what it
    gives for the second, and the first input that raises decides. *)
Theorem get_credit_transactions_app (rows1 rows2 : list (list string)) :
  get_credit_transactions (rows1 ++ rows2)
  = (txs1 <- get_credit_transactions rows1 ;;
     txs2 <- get_credit_transactions rows2 ;;
     Ok (txs1 ++ txs2)%list).
Proof.
  induction rows1 as [|row rows1 IH]; cbn [app get_credit_transactions bind].
  - now destruct (get_credit_transactions rows2).
  - destruct (transaction_of_row row) as [tx|]; cbn [bind]; [|reflexivity].
    rewrite IH. destruct (get_credit_transactions rows1) as [txs1|];
      cbn [bind]; [|reflexivity].
    now destruct (get_credit_transactions rows2).
Qed.

(** X14. The run reads fields 0, 1, 2 and 4 of each row and nothing else:
    two inputs whose rows agree on these fields give the same outcome, the
    same document or the same error, whatever their fourth fields are and
    whatever follows the fifth. *)
Theorem unread_fields_ignored (args : Args) (now : datetime) (rnd : nat -> nat)
  (rows rows' : list (list string)) (template : Element) :
  Forall2 same_fields_read rows rows' ->
  process_xml args now rnd rows template
  = process_xml args now rnd rows' template.
Proof.
  intros H. unfold process_xml.
  now rewrite (get_credit_transactions_same rows rows' H).
Qed.

Lemma unread_fields_ignored_witness :
  process_xml sample_args sample_now sample_rnd sample_rows sample_template
  = process_xml sample_args sample_now sample_rnd sample_rows_other
      sample_template.
Proof.
  apply (unread_fields_ignored sample_args sample_now sample_rnd sample_rows
           sample_rows_other sample_template).
  repeat constructor.
Defined.
